(** * flingo: the application module [flingo/__main__.py]

    A shallow embedding of the application class [FlingoApp]: the model
    printer [print_model], the option parser [_parse_defined_predicate],
    the statistics callback [_on_statistics] and the entry point [main],
    together with the properties of them that the specification states. *)

From Stdlib Require Import Ascii String QArith.
From stdpp Require Import base option list strings pretty gmap fin_maps.

Set Warnings "-register-all".

Open Scope string_scope.
Open Scope list_scope.
Open Scope Z_scope.

(** ** Python exceptions and the error monad *)

(** The exceptions the embedded code can raise. [RuntimeError] is what
    clingo raises when [name] or [arguments] is read on a symbol that is
    not a function symbol. *)
Inductive PyError : Type :=
| RuntimeError
| AttributeError
| IndexError
| KeyError
| TypeError.

Inductive result (A : Type) : Type :=
| Ok (a : A)
| Raise (e : PyError).
Arguments Ok {A} a.
Arguments Raise {A} e.

Definition bind {A B : Type} (x : result A) (f : A -> result B) : result B :=
  match x with
  | Ok a => f a
  | Raise e => Raise e
  end.

Notation "'let*' x ':=' c 'in' k" := (bind c (fun x => k))
  (at level 10, x name, c at level 100, k at level 200).

(** Python's short-circuit [and] on booleans: the right operand is only
    evaluated when the left one is true. *)
Definition py_and (x y : result bool) : result bool :=
  let* b := x in if b then y else Ok false.

Infix "&&&" := py_and (at level 40, left associativity).

(** Python's [not]. *)
Definition py_not (x : result bool) : result bool :=
  let* b := x in Ok (negb b).

(** ** clingo symbols *)

(** [clingo.Symbol]: numbers, strings, function symbols (with a sign;
    tuples are functions with an empty name), [#inf] and [#sup]. *)
Inductive Symbol : Type :=
| Number (n : Z)
| String_ (s : string)
| Function (name : string) (arguments : list Symbol) (positive : bool)
| Infimum
| Supremum.

(** [Symbol.name]: only function symbols have one. *)
Definition name (s : Symbol) : result string :=
  match s with
  | Function n _ _ => Ok n
  | _ => Raise RuntimeError
  end.

(** [Symbol.arguments]: only function symbols have them. *)
Definition arguments (s : Symbol) : result (list Symbol) :=
  match s with
  | Function _ args _ => Ok args
  | _ => Raise RuntimeError
  end.

(** [l[i]] on a Python list, for a non-negative literal index. *)
Definition getitem {A : Type} (l : list A) (i : nat) : result A :=
  match l !! i with
  | Some a => Ok a
  | None => Raise IndexError
  end.

(** [",".join(l)] and [" ".join(l)]. *)
Fixpoint join (sep : string) (l : list string) : string :=
  match l with
  | [] => EmptyString
  | [s] => s
  | s :: l' => s +:+ sep +:+ join sep l'
  end.

(** Quoting of a string symbol: backslash, newline and double quote are
    escaped. *)
Definition dquote : Ascii.ascii := "034"%char.

Fixpoint quote (s : string) : string :=
  match s with
  | EmptyString => EmptyString
  | String c s' =>
      (if Ascii.eqb c "\"%char then "\\"
       else if Ascii.eqb c "010"%char then "\n"
       else if Ascii.eqb c dquote then String "\" (String dquote EmptyString)
       else String c EmptyString) +:+ quote s'
  end.

(** [str(symbol)]. *)
Fixpoint str (s : Symbol) : string :=
  match s with
  | Number n => pretty n
  | String_ t => String dquote (quote t +:+ String dquote EmptyString)
  | Infimum => "#inf"
  | Supremum => "#sup"
  | Function n args pos =>
      (if pos then EmptyString else "-") +:+ n +:+
      match args with
      | [] => if String.eqb n EmptyString then "()" else EmptyString
      | [a] => "(" +:+ str a +:+ (if String.eqb n EmptyString then ",)" else ")")
      | _ => "(" +:+ join "," (map str args) +:+ ")"
      end
  end.

(** ** Module constants *)

Definition MAX_INT : Z := 1073741823.
Definition MIN_INT : Z := -1073741823.
Definition CSP : string := "__csp".
Definition DEF : string := "__def".

(** Modelled from the spec: the constant [AUX] is imported from
    [flingo.translator], which is not among the sources; it is the
    reserved auxiliary functor, [__aux]. *)
Definition AUX : string := "__aux".

(** ** Application state *)

(** The two durations are differences of readings of the clock, in
    seconds; they are kept as rationals. *)
Record Statistic : Type := {
  rewrite_ast : Q;
  translate_program : Q;
  atoms_added : Z;
  rules_added : Z;
  variables_added : Z
}.

(** [Statistic()] *)
Definition Statistic_init : Statistic :=
  {| rewrite_ast := 0%Q; translate_program := 0%Q; atoms_added := 0;
     rules_added := 0; variables_added := 0 |}.

(** [AppConfig]; the two [clingo.Flag] objects are read through their
    truth value only. *)
Record AppConfig : Type := {
  print_aux : bool;
  print_trans : bool;
  min_int : Z;
  max_int : Z;
  defined : string
}.

(** [AppConfig(min_int, max_int, print_translation, print_auxiliary, defined)] *)
Definition AppConfig_init (mn mx : Z) (print_translation print_auxiliary : bool)
    (d : string) : AppConfig :=
  {| print_aux := print_auxiliary; print_trans := print_translation;
     min_int := mn; max_int := mx; defined := d |}.

(** ** Models *)

(** What [print_model] reads of a [clingo.Model]: the true atoms (for
    [model.contains]), [model.symbols(shown=True)] and
    [model.symbols(theory=True)], the latter two in the order clingo
    returns them. *)
Record Model : Type := {
  atoms : list Symbol;
  shown : list Symbol;
  theory : list Symbol
}.

Fixpoint Symbol_eqb (a b : Symbol) : bool :=
  match a, b with
  | Number n, Number m => Z.eqb n m
  | String_ s, String_ t => String.eqb s t
  | Infimum, Infimum => true
  | Supremum, Supremum => true
  | Function n args p, Function m brgs q =>
      String.eqb n m && Bool.eqb p q &&
      (fix all2 (l1 l2 : list Symbol) : bool :=
         match l1, l2 with
         | [], [] => true
         | x :: l1', y :: l2' => Symbol_eqb x y && all2 l1' l2'
         | _, _ => false
         end) args brgs
  | _, _ => false
  end.

(** [model.contains(atom)] *)
Definition contains (m : Model) (atom : Symbol) : bool :=
  existsb (Symbol_eqb atom) (atoms m).

(** ** List comprehensions *)

(** [[f(x) for x in l if cond(x)]], where both the condition and the
    element expression may raise: the first exception met, in the order
    of the list, ends the evaluation. *)
Fixpoint comprehension {A B : Type} (cond : A -> result bool)
    (f : A -> result B) (l : list A) : result (list B) :=
  match l with
  | [] => Ok []
  | x :: l' =>
      let* b := cond x in
      if b then
        let* y := f x in
        let* rest := comprehension cond f l' in
        Ok (y :: rest)
      else comprehension cond f l'
  end.

(** What an element contributes to a comprehension when nothing
    raises. *)
Definition selected {A B : Type} (cond : A -> result bool) (f : A -> result B)
    (x : A) : option B :=
  match cond x with
  | Ok true => match f x with Ok y => Some y | Raise _ => None end
  | _ => None
  end.

(** The element is evaluated without an exception. *)
Definition quiet {A B : Type} (cond : A -> result bool) (f : A -> result B)
    (x : A) : Prop :=
  exists b, cond x = Ok b /\ (b = true -> exists y, f x = Ok y).

(** ** [FlingoApp.print_model] *)

(** The condition of the [shown] comprehension:
    [not (atom.name == self.config.defined and len(atom.arguments) == 1)] *)
Definition is_marker (config : AppConfig) (atom : Symbol) : result bool :=
  (let* n := name atom in Ok (String.eqb n (defined config)))
  &&& (let* args := arguments atom in Ok (Nat.eqb (length args) 1)).

(** The condition of the [valuation] comprehension. *)
Definition valuation_cond (config : AppConfig) (model : Model)
    (assignment : Symbol) : result bool :=
  (let* n := name assignment in Ok (String.eqb n CSP))
  &&& (let* args := arguments assignment in Ok (Nat.eqb (length args) 2))
  &&& (let* args := arguments assignment in
       let* a0 := getitem args 0 in
       Ok (contains model (Function (defined config) [a0] true)))
  &&& py_not (let* args := arguments assignment in
              let* a0 := getitem args 0 in
              let* n0 := name a0 in
              Ok (String.eqb n0 AUX)).

(** The condition of the [auxvars] comprehension. *)
Definition auxvars_cond (assignment : Symbol) : result bool :=
  (let* n := name assignment in Ok (String.eqb n CSP))
  &&& (let* args := arguments assignment in Ok (Nat.eqb (length args) 2))
  &&& (let* args := arguments assignment in
       let* a0 := getitem args 0 in
       let* n0 := name a0 in
       Ok (String.eqb n0 AUX)).

(** ["val(" + str(assignment.arguments[0]) + "," + str(assignment.arguments[1]) + ")"] *)
Definition val_str (assignment : Symbol) : result string :=
  let* args := arguments assignment in
  let* a0 := getitem args 0 in
  let* args' := arguments assignment in
  let* a1 := getitem args' 1 in
  Ok ("val(" +:+ str a0 +:+ "," +:+ str a1 +:+ ")").

(** What a call has written to standard output, line by line, and the
    exception it ended with, if any. *)
Record Printed : Type := {
  lines : list string;
  raised : option PyError
}.

(** [print_model(self, model, printer)]; the printer is only asserted to
    be present. *)
Definition print_model (config : AppConfig) (model : Model) : Printed :=
  match comprehension (fun atom => py_not (is_marker config atom))
                      (fun atom => Ok (str atom)) (shown model) with
  | Raise e => {| lines := []; raised := Some e |}
  | Ok shown_ =>
  match comprehension (valuation_cond config model) val_str (theory model) with
  | Raise e => {| lines := []; raised := Some e |}
  | Ok valuation =>
      let line1 := join " " (shown_ ++ valuation) in
      if print_aux config then
        match comprehension (is_marker config)
                            (fun atom => Ok (str atom)) (shown model) with
        | Raise e => {| lines := [line1]; raised := Some e |}
        | Ok defs =>
        match comprehension auxvars_cond val_str (theory model) with
        | Raise e => {| lines := [line1]; raised := Some e |}
        | Ok auxvars =>
            {| lines := [line1; join " " (defs ++ auxvars)]; raised := None |}
        end
        end
      else {| lines := [line1]; raised := None |}
  end
  end.

(** ** The entries behind the printed text *)

(** An entry of an output line before it is turned into text: the atom
    [str] is applied to, or the variable and the value a [val(...)] term
    is built from. *)
Inductive Entry : Type :=
| Atom (atom : Symbol)
| Val (variable value : Symbol).

Definition render (e : Entry) : string :=
  match e with
  | Atom atom => str atom
  | Val variable value => "val(" +:+ str variable +:+ "," +:+ str value +:+ ")"
  end.

(** The entry of which [val_str] is the text. *)
Definition val_entry (assignment : Symbol) : result Entry :=
  let* args := arguments assignment in
  let* a0 := getitem args 0 in
  let* args' := arguments assignment in
  let* a1 := getitem args' 1 in
  Ok (Val a0 a1).

Record Selected : Type := {
  entries : list (list Entry);
  failed : option PyError
}.

(** [print_model] with the entries of each line kept instead of their
    text: the same comprehensions, in the same order. *)
Definition select_model (config : AppConfig) (model : Model) : Selected :=
  match comprehension (fun atom => py_not (is_marker config atom))
                      (fun atom => Ok (Atom atom)) (shown model) with
  | Raise e => {| entries := []; failed := Some e |}
  | Ok shown_ =>
  match comprehension (valuation_cond config model) val_entry (theory model) with
  | Raise e => {| entries := []; failed := Some e |}
  | Ok valuation =>
      let line1 := shown_ ++ valuation in
      if print_aux config then
        match comprehension (is_marker config)
                            (fun atom => Ok (Atom atom)) (shown model) with
        | Raise e => {| entries := [line1]; failed := Some e |}
        | Ok defs =>
        match comprehension auxvars_cond val_entry (theory model) with
        | Raise e => {| entries := [line1]; failed := Some e |}
        | Ok auxvars =>
            {| entries := [line1; defs ++ auxvars]; failed := None |}
        end
        end
      else {| entries := [line1]; failed := None |}
  end
  end.

(** [print(" ".join(entries))] for every line. *)
Definition render_selected (s : Selected) : Printed :=
  {| lines := map (fun line => join " " (map render line)) (entries s);
     raised := failed s |}.

(** ** The classification of the specification *)

(** A constraint valuation atom: a function symbol named [CSP] with
    exactly two arguments, the variable and the value. *)
Definition constraint_valuation (a : Symbol) : option (Symbol * Symbol) :=
  match a with
  | Function n [variable; value] _ =>
      if String.eqb n CSP then Some (variable, value) else None
  | _ => None
  end.

(** [is_auxiliary = (variable.functor == AUX_SYMBOL)] *)
Definition is_auxiliary (variable : Symbol) : bool :=
  match variable with
  | Function n _ _ => String.eqb n AUX
  | _ => false
  end.

(** [is_defined = exists ground atom defined(variable)] *)
Definition is_defined (config : AppConfig) (model : Model) (variable : Symbol) : bool :=
  contains model (Function (defined config) [variable] true).

Inductive Class : Type :=
| visible
| hidden_auxiliary
| undefined.

Definition classify (config : AppConfig) (model : Model) (variable : Symbol) : Class :=
  if is_defined config model variable then
    if is_auxiliary variable then hidden_auxiliary else visible
  else undefined.

(** A DefinedMarker atom: the configured name, one argument. *)
Definition defined_marker (config : AppConfig) (atom : Symbol) : bool :=
  match atom with
  | Function n [_] _ => String.eqb n (defined config)
  | _ => false
  end.

(** The reading of the marker by its name alone. *)
Definition named_defined (config : AppConfig) (atom : Symbol) : bool :=
  match atom with
  | Function n _ _ => String.eqb n (defined config)
  | _ => false
  end.

(** The [val(variable,value)] terms of the visible valuations. *)
Definition visible_vals (config : AppConfig) (model : Model) : list Entry :=
  omap (fun a =>
          match constraint_valuation a with
          | Some (variable, value) =>
              match classify config model variable with
              | visible => Some (Val variable value)
              | _ => None
              end
          | None => None
          end) (theory model).

(** The primary line as the specification words it: the shown atoms
    that are not DefinedMarker atoms, then the visible valuations. *)
Definition spec_primary (config : AppConfig) (model : Model) : list Entry :=
  map Atom (List.filter (fun atom => negb (defined_marker config atom)) (shown model))
  ++ visible_vals config model.

(** The same with the shown atoms filtered by name alone. *)
Definition spec_primary_by_name (config : AppConfig) (model : Model) : list Entry :=
  map Atom (List.filter (fun atom => negb (named_defined config atom)) (shown model))
  ++ visible_vals config model.

(** Symbols on which no attribute access of [print_model] raises: the
    shown symbols and the theory atoms are function symbols, and the
    first argument of a theory atom, its variable, is one too. *)
Definition is_function (s : Symbol) : bool :=
  match s with
  | Function _ _ _ => true
  | _ => false
  end.

Definition theory_atom_ok (a : Symbol) : bool :=
  match a with
  | Function _ (variable :: _) _ => is_function variable
  | Function _ [] _ => true
  | _ => false
  end.

Definition well_formed (model : Model) : bool :=
  forallb is_function (shown model) && forallb theory_atom_ok (theory model).

(** ** [FlingoApp._parse_defined_predicate] *)

(** [s[i]] on a string. *)
Definition str_getitem (s : string) (i : nat) : result Ascii.ascii :=
  match String.get i s with
  | Some c => Ok c
  | None => Raise IndexError
  end.

(** [c.islower()] for a string of one character, over ASCII: the
    character is a lowercase letter. Names are strings of ASCII
    characters here; Python's [islower] also holds of lowercase letters
    beyond ASCII. *)
Definition islower (c : Ascii.ascii) : bool :=
  (Nat.leb 97 (Ascii.nat_of_ascii c)) && (Nat.leb (Ascii.nat_of_ascii c) 122).

(** [s.attr] for a method of [str] taking one string and answering with
    a truth value: Python's [str] has [startswith], [endswith] and
    [__contains__] (the [in] operator); it has no attribute [contains],
    so looking that name up raises [AttributeError]. *)
Definition str_getattr (s attr : string) : result (string -> result bool) :=
  if String.eqb attr "startswith" then
    Ok (fun t => Ok (String.prefix t s))
  else if String.eqb attr "endswith" then
    Ok (fun t => Ok (String.prefix (String.rev t) (String.rev s)))
  else if String.eqb attr "__contains__" then
    Ok (fun t => Ok (match String.index 0 t s with Some _ => true | None => false end))
  else Raise AttributeError.

Definition set_defined (config : AppConfig) (d : string) : AppConfig :=
  {| print_aux := print_aux config; print_trans := print_trans config;
     min_int := min_int config; max_int := max_int config; defined := d |}.

(** [_parse_defined_predicate(self, name)]: the truth value returned and
    the configuration afterwards, or the exception raised. *)
Definition _parse_defined_predicate (config : AppConfig) (name_ : string)
    : result (bool * AppConfig) :=
  let* b := (let* c := str_getitem name_ 0 in Ok (islower c))
            &&& (let* contains_ := str_getattr name_ "contains" in
                 contains_ "[a-zA-Z0-9]+") in
  if b then Ok (true, set_defined config name_)
  else Ok (false, config).

(** What the specification asks of a name: non-empty, a lowercase
    letter first, letters and digits (and underscores) after it. *)
Definition is_alnum_ (c : Ascii.ascii) : bool :=
  let n := Ascii.nat_of_ascii c in
  (Nat.leb 97 n && Nat.leb n 122) || (Nat.leb 65 n && Nat.leb n 90)
  || (Nat.leb 48 n && Nat.leb n 57) || Nat.eqb n 95.

Definition valid_defined_name (name_ : string) : bool :=
  match name_ with
  | EmptyString => false
  | String c rest => islower c && forallb is_alnum_ (list_ascii_of_string rest)
  end.

(** ** The statistics accumulator *)

(** The accumulator is a dictionary whose values are numbers or further
    dictionaries; dictionaries are objects in a store, named by their
    location, so that two names for one dictionary see the same
    entries. *)
Inductive Value : Type :=
| VInt (z : Z)
| VFloat (q : Q)
| VDict (l : nat).

Abbreviation Store := (gmap nat (gmap string Value)).

(** Code that reads and writes the store and may raise. *)
Definition Py (A : Type) : Type := Store -> result (A * Store).

Definition py_ret {A : Type} (a : A) : Py A := fun h => Ok (a, h).

Definition py_bind {A B : Type} (c : Py A) (k : A -> Py B) : Py B :=
  fun h => match c h with
           | Ok (a, h') => k a h'
           | Raise e => Raise e
           end.

Notation "'do*' x ':=' c 'in' k" := (py_bind c (fun x => k))
  (at level 10, x name, c at level 100, k at level 200).
Notation "c ';;' k" := (py_bind c (fun _ => k))
  (at level 100, k at level 200, right associativity).

(** [{}]: a new, empty dictionary. *)
Definition new_dict : Py Value :=
  fun h => let l := fresh (dom h) in Ok (VDict l, <[l := ∅]> h).

(** [d[key] = v] *)
Definition setitem (d : Value) (key : string) (v : Value) : Py unit :=
  fun h => match d with
           | VDict l =>
               match h !! l with
               | Some entries_ => Ok (tt, <[l := <[key := v]> entries_]> h)
               | None => Raise TypeError
               end
           | _ => Raise TypeError
           end.

(** [d[key]] *)
Definition dict_getitem (d : Value) (key : string) : Py Value :=
  fun h => match d with
           | VDict l =>
               match h !! l with
               | Some entries_ =>
                   match entries_ !! key with
                   | Some v => Ok (v, h)
                   | None => Raise KeyError
                   end
               | None => Raise TypeError
               end
           | _ => Raise TypeError
           end.

(** Reading along a path of keys, from a dictionary of the store. *)
Fixpoint lookup_path (h : Store) (d : Value) (path : list string) : option Value :=
  match path with
  | [] => Some d
  | key :: path' =>
      match d with
      | VDict l =>
          match h !! l with
          | Some entries_ =>
              match entries_ !! key with
              | Some v => lookup_path h v path'
              | None => None
              end
          | None => None
          end
      | _ => None
      end
  end.

(** ** The application and its collaborators *)

Record FlingoApp : Type := {
  config : AppConfig;
  stats : Statistic
}.

(** [FlingoApp()] *)
Definition FlingoApp_init : FlingoApp :=
  {| config := AppConfig_init MIN_INT MAX_INT false false DEF;
     stats := Statistic_init |}.

(** [Position(filename, line, column)] and [Location(begin, end)] of
    [clingo.ast]. *)
Record Position : Type := {
  filename : string;
  line : Z;
  column : Z
}.

Record Location : Type := {
  begin_ : Position;
  end_ : Position
}.

(** Where [_read] takes the text of a source from. *)
Inductive Source : Type :=
| sys_stdin
| file (path : string).

(** [_read(self, path)] *)
Definition _read (path : string) : Source :=
  if String.eqb path "-" then sys_stdin else file path.

Section Application.

(** The syntax trees of [clingo.ast] and its [Rule] constructor. *)
Variable AST : Type.
Variable Rule : Location -> AST -> list AST -> AST.

(** [flingo.parsing.HeadBodyTransformer] is not among the sources and
    is taken as given: the state of a transformer, the new
    transformer, what [visit] returns and how it changes the state,
    and the queue [rules_to_add] of a state. *)
Variable HBT : Type.
Variable HeadBodyTransformer : HBT.
Variable visit : HBT -> AST -> AST * HBT.
Variable rules_to_add : HBT -> list (AST * list AST).

(** The statements [parse_files] reads from the given sources; it
    calls its callback on each of them, in this order. *)
Variable parse : list string -> list AST.

(** The theory definition [flingo.THEORY], loaded as it is. *)
Variable THEORY : string.

(** What [Translator.translate] does to the statistics. *)
Variable translate : AppConfig -> Statistic -> Statistic.

(** What the [on_statistics] of the constraint theory does to the
    store, given the step and the accumulator. *)
Variable Step : Type.
Variable theory_on_statistics : Step -> Value -> Store -> Store.

(** The calls [main] makes on its collaborators, in the order it makes
    them. The arguments of the translator and of [solve] are not
    recorded. *)
Inductive Event : Type :=
| theory_register
| theory_configure (key value : string)
| parse_files (files : list string)
| bld_add (stm : AST)
| control_add (name_ : string) (params : list string) (program : string)
| control_ground (parts : list (string * list Symbol))
| translator_translate
| theory_prepare
| control_solve.

(** [_on_statistics(self, step, akku)] *)
Definition _on_statistics (self : FlingoApp) (step : Step) (akku : Value) : Py bool :=
  (fun h => Ok (tt, theory_on_statistics step akku h)) ;;
  do* d := new_dict in
  setitem akku "flingo" d ;;
  do* flingo := dict_getitem akku "flingo" in
  do* d' := new_dict in
  setitem flingo "Translation time in seconds" d' ;;
  do* translation := dict_getitem flingo "Translation time in seconds" in
  setitem translation "AST rewriting" (VFloat (rewrite_ast (stats self))) ;;
  setitem translation "Translation" (VFloat (translate_program (stats self))) ;;
  setitem flingo "Number of variables added" (VInt (variables_added (stats self))) ;;
  setitem flingo "Number of atoms added" (VInt (atoms_added (stats self))) ;;
  setitem flingo "Number of rules added" (VInt (rules_added (stats self))) ;;
  py_ret true.

(** The callback [lambda stm: bld.add(hbt.visit(stm))] run by
    [parse_files] over the statements, in order. *)
Fixpoint parse_loop (hbt : HBT) (stms : list AST) (trace : list Event)
    : HBT * list Event :=
  match stms with
  | [] => (hbt, trace)
  | stm :: rest =>
      let '(stm', hbt') := visit hbt stm in
      parse_loop hbt' rest (trace ++ [bld_add stm'])
  end.

(** [for rule in hbt.rules_to_add: bld.add(Rule(loc, rule[0], rule[1]))] *)
Fixpoint rules_loop (loc : Location) (rules : list (AST * list AST))
    (trace : list Event) : list Event :=
  match rules with
  | [] => trace
  | rule :: rest =>
      rules_loop loc rest (trace ++ [bld_add (Rule loc (fst rule) (snd rule))])
  end.

Definition set_rewrite_ast (s : Statistic) (d : Q) : Statistic :=
  {| rewrite_ast := d; translate_program := translate_program s;
     atoms_added := atoms_added s; rules_added := rules_added s;
     variables_added := variables_added s |}.

Definition set_translate_program (s : Statistic) (d : Q) : Statistic :=
  {| rewrite_ast := rewrite_ast s; translate_program := d;
     atoms_added := atoms_added s; rules_added := rules_added s;
     variables_added := variables_added s |}.

(** [main(self, control, files)]: the calls made, in order, and the
    application afterwards. [now] gives the four readings of
    [time.time()], in the order they are taken. The collaborators are
    taken to return: a run in which [parse_files] or the transformer
    raises is not described. *)
Definition main (self : FlingoApp) (files : list string) (now : nat -> Q)
    : list Event * FlingoApp :=
  let trace := [theory_register] in
  let trace := trace ++ [theory_configure "max-int" (pretty (max_int (config self)))] in
  let trace := trace ++ [theory_configure "min-int" (pretty (min_int (config self)))] in
  let files := match files with [] => ["-"] | _ => files end in
  let start := now 0%nat in
  let hbt := HeadBodyTransformer in
  let trace := trace ++ [parse_files files] in
  let '(hbt, trace) := parse_loop hbt (parse files) trace in
  let pos := {| filename := "<string>"; line := 1; column := 1 |} in
  let loc := {| begin_ := pos; end_ := pos |} in
  let trace := rules_loop loc (rules_to_add hbt) trace in
  let end__ := now 1%nat in
  let stats_ := set_rewrite_ast (stats self) (end__ - start)%Q in
  let trace := trace ++ [control_add "base" [] THEORY] in
  let trace := trace ++ [control_ground [("base", [])]] in
  let start := now 2%nat in
  let trace := trace ++ [translator_translate] in
  let stats_ := translate (config self) stats_ in
  let end__ := now 3%nat in
  let stats_ := set_translate_program stats_ (end__ - start)%Q in
  let trace := trace ++ [theory_prepare] in
  let trace := trace ++ [control_solve] in
  (trace, {| config := config self; stats := stats_ |}).

(** The statements handed to the program builder, in order. *)
Definition builder_adds (trace : list Event) : list AST :=
  omap (fun e => match e with bld_add stm => Some stm | _ => None end) trace.

(** The transformer after it has visited the given statements. *)
Definition hbt_after (stms : list AST) : HBT :=
  fold_left (fun hbt stm => snd (visit hbt stm)) stms HeadBodyTransformer.

(** The rewritten statements: each statement as [visit] returns it
    from the transformer that has visited the statements before it. *)
Definition rewritten (stms : list AST) : list AST :=
  imap (fun i stm => fst (visit (hbt_after (take i stms)) stm)) stms.

(** A pending rule made a statement at the given location. *)
Definition materialize (loc : Location) (rule : AST * list AST) : AST :=
  Rule loc (fst rule) (snd rule).

End Application.

Arguments theory_register {AST}.
Arguments theory_configure {AST} key value.
Arguments parse_files {AST} files.
Arguments bld_add {AST} stm.
Arguments control_add {AST} name_ params program.
Arguments control_ground {AST} parts.
Arguments translator_translate {AST}.
Arguments theory_prepare {AST}.
Arguments control_solve {AST}.

(** ** A sample model *)

Definition sample_x : Symbol := Function "x" [] true.
Definition sample_y : Symbol := Function "y" [] true.
Definition sample_aux : Symbol := Function AUX [Number 1] true.

(** [x] and the auxiliary variable are defined, [y] is not; one theory
    atom has a single argument; one shown atom has the marker's name and
    two arguments. *)
Definition sample_model : Model :=
  {| atoms := [Function DEF [sample_x] true; Function DEF [sample_aux] true;
               Function "p" [Number 1] true;
               Function DEF [sample_x; sample_x] true];
     shown := [Function DEF [sample_x] true; Function "p" [Number 1] true;
               Function DEF [sample_x; sample_x] true];
     theory := [Function CSP [sample_x; Number 5] true;
                Function CSP [sample_aux; Number 7] true;
                Function CSP [sample_y; Number 0] true;
                Function CSP [sample_x] true] |}.

(** The location [Location(pos, pos)] with [pos = Position("<string>", 1, 1)]. *)
Definition synthetic_location : Location :=
  let pos := {| filename := "<string>"; line := 1; column := 1 |} in
  {| begin_ := pos; end_ := pos |}.

(** The files [main] hands to [parse_files]. *)
Definition sources (files : list string) : list string :=
  match files with [] => ["-"] | _ => files end.

(** The default options, and the default options with [print-auxvars]. *)
Definition default_config : AppConfig :=
  AppConfig_init MIN_INT MAX_INT false false DEF.

Definition auxvars_config : AppConfig :=
  AppConfig_init MIN_INT MAX_INT false true DEF.

(** ** A sample run *)

(** Statements as text; a transformer that primes each statement and
    queues one rule for it; a parser that reads two statements from any
    sources. *)
Definition sample_Rule (loc : Location) (head : string) (body : list string) : string :=
  head +:+ " :- " +:+ join "," body +:+ ".".

Definition sample_visit (hbt : list (string * list string)) (stm : string)
    : string * list (string * list string) :=
  (stm +:+ "'", hbt ++ [("defined(" +:+ stm +:+ ")", [stm])]).

Definition sample_parse (files : list string) : list string := ["a"; "b"].

Definition sample_main (self : FlingoApp) (files : list string)
    : list (Event string) * FlingoApp :=
  main string sample_Rule (list (string * list string)) [] sample_visit
    (fun hbt => hbt) sample_parse "#theory." (fun _ s => s) self files
    (fun n => inject_Z (Z.of_nat n)).

(** A store with an empty accumulator at location 0, and a constraint
    theory that adds nothing to it. *)
Definition sample_store : Store := {[ 0%nat := ∅ ]}.

Definition sample_on_statistics (self : FlingoApp) : result (bool * Store) :=
  _on_statistics unit (fun _ _ h => h) self tt (VDict 0%nat) sample_store.

(** ** The auxiliary line and runs without an exception *)

(** The [val(variable,value)] terms of the valuations of auxiliary
    variables. *)
Definition auxiliary_vals (model : Model) : list Entry :=
  omap (fun a =>
          match constraint_valuation a with
          | Some (variable, value) =>
              if is_auxiliary variable then Some (Val variable value) else None
          | None => None
          end) (theory model).

(** The auxiliary line: the DefinedMarker atoms among the shown ones,
    then the valuations of the auxiliary variables. *)
Definition auxiliary_line (config : AppConfig) (model : Model) : list Entry :=
  map Atom (List.filter (defined_marker config) (shown model))
  ++ auxiliary_vals model.

(** The valuations of the variables that are defined or auxiliary. *)
Definition printed_vals (config : AppConfig) (model : Model) : list Entry :=
  omap (fun a =>
          match constraint_valuation a with
          | Some (variable, value) =>
              if is_defined config model variable || is_auxiliary variable
              then Some (Val variable value) else None
          | None => None
          end) (theory model).

(** A theory symbol whose attributes [print_model] reads without an
    exception: a function symbol, and when it is a two-argument [__csp]
    atom whose variable is defined, or when the auxiliary line is
    asked for, its variable is a function symbol too. *)
Definition theory_atom_clean (config : AppConfig) (model : Model) (a : Symbol) : bool :=
  match a with
  | Function _ _ _ =>
      match constraint_valuation a with
      | Some (variable, _) =>
          if is_defined config model variable || print_aux config
          then is_function variable else true
      | None => true
      end
  | _ => false
  end.

Definition runs_clean (config : AppConfig) (model : Model) : bool :=
  forallb is_function (shown model)
  && forallb (theory_atom_clean config model) (theory model).

Definition set_print_aux (config : AppConfig) (flag : bool) : AppConfig :=
  {| print_aux := flag; print_trans := print_trans config;
     min_int := min_int config; max_int := max_int config;
     defined := defined config |}.

(** A model with a number among its theory variables. *)
Definition sample_number_model : Model :=
  {| atoms := [Function DEF [sample_x] true];
     shown := [Function "p" [] true];
     theory := [Function CSP [sample_x; Number 5] true;
                Function CSP [Number 3; Number 4] true] |}.

(** ** The sections the statistics callback writes *)

(** The dictionary under ["Translation time in seconds"]. *)
Definition translation_section (self : FlingoApp) : gmap string Value :=
  <["Translation" := VFloat (translate_program (stats self))]>
    (<["AST rewriting" := VFloat (rewrite_ast (stats self))]> ∅).

(** The dictionary under ["flingo"], with the one above at [l]. *)
Definition flingo_section (self : FlingoApp) (l : nat) : gmap string Value :=
  <["Number of rules added" := VInt (rules_added (stats self))]>
    (<["Number of atoms added" := VInt (atoms_added (stats self))]>
       (<["Number of variables added" := VInt (variables_added (stats self))]>
          (<["Translation time in seconds" := VDict l]> ∅))).

(** A store with a second dictionary beside the accumulator. *)
Definition sample_store2 : Store :=
  {[ 0%nat := {[ "clingcon" := VDict 1%nat ]};
     1%nat := {[ "Time" := VInt 3 ]} ]}.

(** A call of [control.ground]. *)
Definition is_ground (AST : Type) (e : Event AST) : Prop :=
  match e with control_ground _ => True | _ => False end.

(** The calls of the sample run before it grounds. *)
Definition sample_before_ground : list (Event string) :=
  [theory_register; theory_configure "max-int" "1073741823";
   theory_configure "min-int" "-1073741823"; parse_files ["-"];
   bld_add "a'"; bld_add "b'"; bld_add "defined(a) :- a."; bld_add "defined(b) :- b.";
   control_add "base" [] "#theory."].

(** [s.isascii()]: every character is below 128; on such strings the
    characters are the code points of the Python string. *)
Definition isascii (s : string) : bool :=
  forallb (fun c => Nat.ltb (Ascii.nat_of_ascii c) 128) (list_ascii_of_string s).

(** * Properties *)

(** ** Membership in the model *)

Lemma Symbol_eqb_eq : forall a b, Symbol_eqb a b = true <-> a = b.
Proof.
  fix IH 1. intros a b. destruct a as [n|s|n args p| |], b as [m|t|m brgs q| |];
    simpl; try (split; [discriminate | intros H; discriminate H]);
    try (split; reflexivity).
  - rewrite Z.eqb_eq. split; [intros ->; reflexivity | intros H; inversion H; reflexivity].
  - rewrite String.eqb_eq. split; [intros ->; reflexivity | intros H; inversion H; reflexivity].
  - rewrite !andb_true_iff, String.eqb_eq, Bool.eqb_true_iff.
    assert ((fix all2 (l1 l2 : list Symbol) : bool :=
         match l1, l2 with
         | [], [] => true
         | x :: l1', y :: l2' => Symbol_eqb x y && all2 l1' l2'
         | _, _ => false
         end) args brgs = true <-> args = brgs) as Hl.
    { revert brgs. induction args as [|x l1 IHl]; intros [|y l2];
        try (split; [discriminate | intros H; discriminate H]);
        try (split; reflexivity).
      rewrite andb_true_iff, IHl, (IH x y).
      split; [intros [-> ->]; reflexivity | intros H; inversion H; auto]. }
    rewrite Hl.
    split; [intros [[-> ->] ->]; reflexivity | intros H; inversion H; auto].
Qed.

(** [model.contains(atom)] holds of the true atoms of the model. *)
Lemma contains_In model atom : contains model atom = true <-> In atom (atoms model).
Proof.
  unfold contains. rewrite existsb_exists. split.
  - intros [x [Hx He]]. apply Symbol_eqb_eq in He. subst. exact Hx.
  - intros H. exists atom. split; [exact H | apply Symbol_eqb_eq; reflexivity].
Qed.

Lemma is_defined_In config model variable :
  is_defined config model variable = true
  <-> In (Function (defined config) [variable] true) (atoms model).
Proof. apply contains_In. Qed.

Lemma is_defined_not_In config model variable :
  is_defined config model variable = false
  <-> ~ In (Function (defined config) [variable] true) (atoms model).
Proof.
  rewrite <- is_defined_In. destruct (is_defined config model variable).
  - split; [discriminate | intros H; destruct (H eq_refl)].
  - split; [intros _; discriminate | reflexivity].
Qed.

(** ** Comprehensions *)

Section Comprehension.

Context {A B : Type}.
Variable cond : A -> result bool.
Variable f : A -> result B.

Lemma comprehension_Ok_inv l ys :
  comprehension cond f l = Ok ys ->
  ys = omap (selected cond f) l /\ Forall (quiet cond f) l.
Proof.
  revert ys. induction l as [|x l IH]; intros ys H; simpl in H.
  - inversion H. split; [reflexivity | constructor].
  - simpl. unfold selected at 1.
    destruct (cond x) as [[|]|e] eqn:Hc; simpl in H; try discriminate.
    + destruct (f x) as [y|e] eqn:Hf; simpl in H; try discriminate.
      destruct (comprehension cond f l) as [rest|e] eqn:Hr; simpl in H;
        try discriminate.
      inversion H; subst. destruct (IH rest eq_refl) as [-> Hq].
      split; [reflexivity|]. constructor; [|exact Hq].
      exists true. split; [exact Hc | intros _; exists y; exact Hf].
    + destruct (IH ys H) as [-> Hq]. split; [reflexivity|].
      constructor; [|exact Hq].
      exists false. split; [exact Hc | discriminate].
Qed.

Lemma comprehension_quiet l :
  Forall (quiet cond f) l -> comprehension cond f l = Ok (omap (selected cond f) l).
Proof.
  induction 1 as [|x l [b [Hc Hf]] _ IH]; simpl; [reflexivity|].
  unfold selected at 1. rewrite Hc. simpl. destruct b.
  - destruct (Hf eq_refl) as [y Hy]. rewrite Hy. simpl. rewrite IH. reflexivity.
  - exact IH.
Qed.

(** An element whose condition is false, without an exception, can be
    left out. *)
Lemma comprehension_skip l1 x l2 :
  cond x = Ok false ->
  comprehension cond f (l1 ++ x :: l2) = comprehension cond f (l1 ++ l2).
Proof.
  intros Hc. induction l1 as [|z l1 IH]; simpl.
  - rewrite Hc. reflexivity.
  - rewrite IH. reflexivity.
Qed.

Lemma selected_In l x y :
  In x l -> selected cond f x = Some y -> In y (omap (selected cond f) l).
Proof.
  intros Hx Hy. apply list_elem_of_In, list_elem_of_omap.
  exists x. split; [apply list_elem_of_In; exact Hx | exact Hy].
Qed.

Lemma In_selected l y :
  In y (omap (selected cond f) l) -> exists x, In x l /\ selected cond f x = Some y.
Proof.
  intros Hy. apply list_elem_of_In, list_elem_of_omap in Hy.
  destruct Hy as [x [Hx Hs]]. exists x.
  split; [apply list_elem_of_In; exact Hx | exact Hs].
Qed.

End Comprehension.

(** Mapping over the elements commutes with the comprehension. *)
Lemma comprehension_map {A B C : Type} (cond : A -> result bool)
    (f : A -> result B) (g : A -> result C) (h : B -> C) (l : list A) :
  (forall x, g x = let* y := f x in Ok (h y)) ->
  comprehension cond g l = let* ys := comprehension cond f l in Ok (map h ys).
Proof.
  intros Hg. induction l as [|x l IH]; simpl; [reflexivity|].
  destruct (cond x) as [[|]|e]; simpl; try reflexivity.
  - rewrite Hg. destruct (f x) as [y|e]; simpl; [|reflexivity].
    rewrite IH. destruct (comprehension cond f l); reflexivity.
  - exact IH.
Qed.

(** ** The conditions of [print_model] on function symbols *)

Lemma constraint_valuation_Some a variable value :
  constraint_valuation a = Some (variable, value) ->
  exists pos, a = Function CSP [variable; value] pos.
Proof.
  destruct a as [| |n args pos| |]; simpl; try discriminate.
  destruct args as [|v [|x [|z args]]]; try discriminate.
  destruct (String.eqb n CSP) eqn:Hn; [|discriminate].
  intros H. inversion H; subst. apply String.eqb_eq in Hn. subst.
  exists pos. reflexivity.
Qed.

Lemma is_marker_function config n args pos :
  is_marker config (Function n args pos)
  = Ok (defined_marker config (Function n args pos)).
Proof.
  unfold is_marker, py_and. simpl.
  destruct (String.eqb n (defined config)); simpl.
  - destruct args as [|a [|b args]]; reflexivity.
  - destruct args as [|a [|b args]]; reflexivity.
Qed.

Lemma valuation_cond_function config model n args pos :
  valuation_cond config model (Function n args pos)
  = match constraint_valuation (Function n args pos) with
    | Some (variable, _) =>
        if is_defined config model variable
        then py_not (let* n0 := name variable in Ok (String.eqb n0 AUX))
        else Ok false
    | None => Ok false
    end.
Proof.
  unfold valuation_cond, py_and, is_defined. simpl.
  destruct (String.eqb n CSP); destruct args as [|v [|x [|z args]]]; simpl;
    reflexivity.
Qed.

Lemma auxvars_cond_function n args pos :
  auxvars_cond (Function n args pos)
  = match constraint_valuation (Function n args pos) with
    | Some (variable, _) => let* n0 := name variable in Ok (String.eqb n0 AUX)
    | None => Ok false
    end.
Proof.
  unfold auxvars_cond, py_and. simpl.
  destruct (String.eqb n CSP); destruct args as [|v [|x [|z args]]]; simpl;
    reflexivity.
Qed.

(** On a function symbol, reading the name decides [is_auxiliary]. *)
Lemma name_is_auxiliary variable :
  is_function variable = true ->
  (let* n0 := name variable in Ok (String.eqb n0 AUX)) = Ok (is_auxiliary variable).
Proof. destruct variable; simpl; try discriminate. reflexivity. Qed.

(** ** What the comprehensions of [print_model] select *)

(** The visible valuation of a theory atom, in the words of the
    specification. *)
Lemma valuation_selected_inv config model a variable value :
  selected (valuation_cond config model) val_entry a = Some (Val variable value) ->
  constraint_valuation a = Some (variable, value)
  /\ classify config model variable = visible.
Proof.
  unfold selected. destruct a as [| |n args pos| |]; try discriminate.
  rewrite valuation_cond_function.
  destruct (constraint_valuation (Function n args pos)) as [[v x]|] eqn:Hcv;
    [|discriminate].
  destruct (constraint_valuation_Some _ _ _ Hcv) as [pos' Ha].
  inversion Ha; subst.
  destruct (is_defined config model v) eqn:Hd; [|discriminate].
  destruct v as [| |n0 vargs vpos| |]; simpl; try discriminate.
  destruct (String.eqb n0 AUX) eqn:Hn; simpl; [discriminate|].
  intros H. inversion H; subst. split; [reflexivity|].
  unfold classify. rewrite Hd. simpl. rewrite Hn. reflexivity.
Qed.

Lemma valuation_selected_quiet config model a :
  quiet (valuation_cond config model) val_entry a ->
  selected (valuation_cond config model) val_entry a
  = match constraint_valuation a with
    | Some (variable, value) =>
        match classify config model variable with
        | visible => Some (Val variable value)
        | _ => None
        end
    | None => None
    end.
Proof.
  intros [b [Hc Hf]]. unfold selected.
  destruct a as [| |n args pos| |]; try discriminate.
  rewrite valuation_cond_function in *.
  destruct (constraint_valuation (Function n args pos)) as [[v x]|] eqn:Hcv;
    [|reflexivity].
  destruct (constraint_valuation_Some _ _ _ Hcv) as [pos' Ha].
  inversion Ha; subst. unfold classify.
  destruct (is_defined config model v); [|reflexivity].
  destruct v as [| |n0 vargs vpos| |]; simpl in *; try discriminate.
  destruct (String.eqb n0 AUX); reflexivity.
Qed.

Lemma auxvars_selected_inv a variable value :
  selected auxvars_cond val_entry a = Some (Val variable value) ->
  constraint_valuation a = Some (variable, value) /\ is_auxiliary variable = true.
Proof.
  unfold selected. destruct a as [| |n args pos| |]; try discriminate.
  rewrite auxvars_cond_function.
  destruct (constraint_valuation (Function n args pos)) as [[v x]|] eqn:Hcv;
    [|discriminate].
  destruct (constraint_valuation_Some _ _ _ Hcv) as [pos' Ha].
  inversion Ha; subst.
  destruct v as [| |n0 vargs vpos| |]; simpl; try discriminate.
  destruct (String.eqb n0 AUX) eqn:Hn; simpl; [|discriminate].
  intros H. inversion H; subst. split; [reflexivity | exact Hn].
Qed.

Lemma auxvars_selected variable value pos :
  is_auxiliary variable = true ->
  selected auxvars_cond val_entry (Function CSP [variable; value] pos)
  = Some (Val variable value).
Proof.
  intros Haux. unfold selected. rewrite auxvars_cond_function. simpl.
  destruct variable as [| |n0 vargs vpos| |]; simpl in *; try discriminate.
  rewrite Haux. reflexivity.
Qed.

Lemma val_entry_selected_shape {cond : Symbol -> result bool} a e :
  selected cond val_entry a = Some e -> exists variable value, e = Val variable value.
Proof.
  unfold selected. destruct (cond a) as [[|]|]; try discriminate.
  destruct a as [| |n args pos| |]; try discriminate.
  destruct args as [|v [|x args]]; try discriminate.
  simpl. intros H. inversion H. eauto.
Qed.

Lemma shown_selected_quiet config a :
  quiet (fun atom => py_not (is_marker config atom)) (fun atom => Ok (Atom atom)) a ->
  selected (fun atom => py_not (is_marker config atom)) (fun atom => Ok (Atom atom)) a
  = if negb (defined_marker config a) then Some (Atom a) else None.
Proof.
  intros [b [Hc _]]. unfold selected.
  destruct a as [| |n args pos| |]; try discriminate.
  rewrite is_marker_function. simpl.
  destruct (defined_marker config (Function n args pos)); reflexivity.
Qed.

Lemma defs_selected_inv config a e :
  selected (is_marker config) (fun atom => Ok (Atom atom)) a = Some e ->
  e = Atom a /\ defined_marker config a = true.
Proof.
  unfold selected. destruct a as [| |n args pos| |]; try discriminate.
  rewrite is_marker_function.
  destruct (defined_marker config (Function n args pos)); [|discriminate].
  intros H. inversion H. split; reflexivity.
Qed.

(** ** The structure of the output *)

Lemma val_str_render a :
  val_str a = let* e := val_entry a in Ok (render e).
Proof.
  destruct a as [| |n args pos| |]; try reflexivity.
  destruct args as [|v [|x args]]; reflexivity.
Qed.

(** The printed text is the rendering of the selected entries. *)
Lemma print_model_select config model :
  print_model config model = render_selected (select_model config model).
Proof.
  unfold print_model, select_model, render_selected.
  rewrite (comprehension_map _ (fun atom => Ok (Atom atom)) (fun atom => Ok (str atom)) render)
    by reflexivity.
  rewrite (comprehension_map (is_marker config) (fun atom => Ok (Atom atom))
             (fun atom => Ok (str atom)) render) by reflexivity.
  rewrite (comprehension_map (valuation_cond config model) val_entry val_str render)
    by apply val_str_render.
  rewrite (comprehension_map auxvars_cond val_entry val_str render)
    by apply val_str_render.
  destruct (comprehension _ _ (shown model)) as [sh|e]; simpl; [|reflexivity].
  destruct (comprehension (valuation_cond config model) _ _) as [va|e]; simpl;
    [|reflexivity].
  destruct (print_aux config); simpl; [|rewrite map_app; reflexivity].
  destruct (comprehension (is_marker config) _ _) as [ds|e]; simpl;
    [|rewrite map_app; reflexivity].
  destruct (comprehension auxvars_cond _ _) as [av|e]; simpl;
    rewrite ?map_app; reflexivity.
Qed.

Lemma select_model_primary config model line_ :
  entries (select_model config model) !! 0%nat = Some line_ ->
  Forall (quiet (fun atom => py_not (is_marker config atom))
                (fun atom => Ok (Atom atom))) (shown model)
  /\ Forall (quiet (valuation_cond config model) val_entry) (theory model)
  /\ line_ = omap (selected (fun atom => py_not (is_marker config atom))
                            (fun atom => Ok (Atom atom))) (shown model)
             ++ omap (selected (valuation_cond config model) val_entry) (theory model).
Proof.
  unfold select_model.
  destruct (comprehension _ _ (shown model)) as [sh|e] eqn:Hsh; [|discriminate].
  destruct (comprehension (valuation_cond config model) _ _) as [va|e] eqn:Hva;
    [|discriminate].
  apply comprehension_Ok_inv in Hsh, Hva.
  destruct Hsh as [-> Hq1], Hva as [-> Hq2].
  intros H. assert (line_ = omap (selected (fun atom => py_not (is_marker config atom))
                            (fun atom => Ok (Atom atom))) (shown model)
             ++ omap (selected (valuation_cond config model) val_entry) (theory model)).
  { destruct (print_aux config);
      [destruct (comprehension (is_marker config) _ _);
       [destruct (comprehension auxvars_cond _ _)|]|];
      simpl in H; inversion H; reflexivity. }
  auto.
Qed.

Lemma select_model_auxiliary config model line_ :
  entries (select_model config model) !! 1%nat = Some line_ ->
  print_aux config = true
  /\ line_ = omap (selected (is_marker config) (fun atom => Ok (Atom atom))) (shown model)
             ++ omap (selected auxvars_cond val_entry) (theory model).
Proof.
  unfold select_model.
  destruct (comprehension _ _ (shown model)) as [sh|e]; [|discriminate].
  destruct (comprehension (valuation_cond config model) _ _) as [va|e];
    [|discriminate].
  destruct (print_aux config); [|discriminate].
  destruct (comprehension (is_marker config) _ _) as [ds|e] eqn:Hds; [|discriminate].
  destruct (comprehension auxvars_cond _ _) as [av|e] eqn:Hav; [|discriminate].
  apply comprehension_Ok_inv in Hds, Hav.
  destruct Hds as [-> _], Hav as [-> _].
  simpl. intros H. inversion H. auto.
Qed.

(** Without the flag there is no second line. *)
Lemma select_model_no_auxiliary config model :
  print_aux config = false -> entries (select_model config model) !! 1%nat = None.
Proof.
  intros Hf. unfold select_model. rewrite Hf.
  destruct (comprehension _ _ (shown model)); [|reflexivity].
  destruct (comprehension (valuation_cond config model) _ _); reflexivity.
Qed.

(** A call that ends without an exception has printed its lines. *)
Lemma select_model_completed config model :
  failed (select_model config model) = None ->
  (exists line_, entries (select_model config model) !! 0%nat = Some line_)
  /\ (print_aux config = true ->
      exists line_, entries (select_model config model) !! 1%nat = Some line_).
Proof.
  unfold select_model.
  destruct (comprehension _ _ (shown model)) as [sh|e]; [|discriminate].
  destruct (comprehension (valuation_cond config model) _ _) as [va|e];
    [|discriminate].
  destruct (print_aux config).
  - destruct (comprehension (is_marker config) _ _) as [ds|e]; [|discriminate].
    destruct (comprehension auxvars_cond _ _) as [av|e]; [|discriminate].
    simpl. eauto.
  - simpl. split; [eauto | discriminate].
Qed.

(** On well-formed models no attribute access raises. *)
Lemma well_formed_completes config model :
  well_formed model = true -> failed (select_model config model) = None.
Proof.
  unfold well_formed. rewrite andb_true_iff, !forallb_forall.
  intros [Hsh Hth].
  assert (Forall (quiet (fun atom => py_not (is_marker config atom))
                    (fun atom => Ok (Atom atom))) (shown model)) as Q1.
  { apply List.Forall_forall. intros a Ha. specialize (Hsh a Ha).
    destruct a; try discriminate. unfold quiet; rewrite is_marker_function. simpl. eauto. }
  assert (Forall (quiet (is_marker config) (fun atom => Ok (Atom atom)))
            (shown model)) as Q2.
  { apply List.Forall_forall. intros a Ha. specialize (Hsh a Ha).
    destruct a; try discriminate. unfold quiet; rewrite is_marker_function. eauto. }
  assert (Forall (quiet (valuation_cond config model) val_entry) (theory model)) as Q3.
  { apply List.Forall_forall. intros a Ha. specialize (Hth a Ha).
    destruct a as [| |n args pos| |]; try discriminate.
    unfold quiet; rewrite valuation_cond_function.
    destruct (constraint_valuation (Function n args pos)) as [[v x]|] eqn:Hcv;
      [|exists false; split; [reflexivity | discriminate]].
    destruct (constraint_valuation_Some _ _ _ Hcv) as [pos' E].
    inversion E; subst. simpl in Hth.
    rewrite (name_is_auxiliary v Hth). simpl.
    destruct (is_defined config model v); eauto. }
  assert (Forall (quiet auxvars_cond val_entry) (theory model)) as Q4.
  { apply List.Forall_forall. intros a Ha. specialize (Hth a Ha).
    destruct a as [| |n args pos| |]; try discriminate.
    unfold quiet; rewrite auxvars_cond_function.
    destruct (constraint_valuation (Function n args pos)) as [[v x]|] eqn:Hcv;
      [|exists false; split; [reflexivity | discriminate]].
    destruct (constraint_valuation_Some _ _ _ Hcv) as [pos' E].
    inversion E; subst. simpl in Hth.
    rewrite (name_is_auxiliary v Hth). eauto. }
  unfold select_model.
  rewrite (comprehension_quiet _ _ _ Q1), (comprehension_quiet _ _ _ Q2),
    (comprehension_quiet _ _ _ Q3), (comprehension_quiet _ _ _ Q4).
  destruct (print_aux config); reflexivity.
Qed.

Lemma atom_selected_shape (cond : Symbol -> result bool) a e :
  selected cond (fun atom => Ok (Atom atom)) a = Some e -> e = Atom a.
Proof.
  unfold selected. destruct (cond a) as [[|]|]; try discriminate.
  intros H. inversion H. reflexivity.
Qed.

Lemma defined_marker_arity config n args pos :
  defined_marker config (Function n args pos) = true -> length args = 1%nat.
Proof. destruct args as [|a [|b args]]; simpl; try discriminate. reflexivity. Qed.

Lemma constraint_valuation_arity n args pos :
  length args <> 2%nat -> constraint_valuation (Function n args pos) = None.
Proof.
  destruct args as [|v [|x [|z args]]]; simpl; try reflexivity.
  intros H. destruct (H eq_refl).
Qed.

Lemma omap_cons {A B : Type} (f : A -> option B) (x : A) (l : list A) :
  omap f (x :: l) = match f x with Some y => y :: omap f l | None => omap f l end.
Proof. reflexivity. Qed.

Lemma shown_selected_filter config l :
  Forall (quiet (fun atom => py_not (is_marker config atom))
                (fun atom => Ok (Atom atom))) l ->
  omap (selected (fun atom => py_not (is_marker config atom))
                 (fun atom => Ok (Atom atom))) l
  = map Atom (List.filter (fun atom => negb (defined_marker config atom)) l).
Proof.
  induction 1 as [|a l Ha _ IH]; [reflexivity|].
  rewrite omap_cons, (shown_selected_quiet _ _ Ha), IH. simpl.
  destruct (negb (defined_marker config a)); reflexivity.
Qed.

Lemma valuation_selected_visible config model l :
  Forall (quiet (valuation_cond config model) val_entry) l ->
  omap (selected (valuation_cond config model) val_entry) l
  = omap (fun a =>
            match constraint_valuation a with
            | Some (variable, value) =>
                match classify config model variable with
                | visible => Some (Val variable value)
                | _ => None
                end
            | None => None
            end) l.
Proof.
  induction 1 as [|a l Ha _ IH]; [reflexivity|].
  rewrite !omap_cons, (valuation_selected_quiet _ _ _ Ha), IH. reflexivity.
Qed.

(** No valuation of a variable that is not visible is on the primary
    line. *)
Lemma primary_only_visible config model line_ variable value :
  entries (select_model config model) !! 0%nat = Some line_ ->
  In (Val variable value) line_ ->
  classify config model variable = visible.
Proof.
  intros Hl Hin. apply select_model_primary in Hl. destruct Hl as (_ & _ & ->).
  apply in_app_or in Hin. destruct Hin as [Hin|Hin];
    apply In_selected in Hin; destruct Hin as [a [_ Hs]].
  - apply atom_selected_shape in Hs. discriminate.
  - apply valuation_selected_inv in Hs. tauto.
Qed.

(** Only valuations of auxiliary variables are on the auxiliary line. *)
Lemma auxiliary_only_aux config model line_ variable value :
  entries (select_model config model) !! 1%nat = Some line_ ->
  In (Val variable value) line_ ->
  is_auxiliary variable = true.
Proof.
  intros Hl Hin. apply select_model_auxiliary in Hl. destruct Hl as (_ & ->).
  apply in_app_or in Hin. destruct Hin as [Hin|Hin];
    apply In_selected in Hin; destruct Hin as [a [_ Hs]].
  - apply atom_selected_shape in Hs. discriminate.
  - apply auxvars_selected_inv in Hs. tauto.
Qed.

(** With the flag set and no exception, every valuation of an auxiliary
    variable is on the auxiliary line. *)
Lemma auxiliary_has_aux config model variable value pos :
  In (Function CSP [variable; value] pos) (theory model) ->
  is_auxiliary variable = true ->
  print_aux config = true ->
  failed (select_model config model) = None ->
  exists line_, entries (select_model config model) !! 1%nat = Some line_
                /\ In (Val variable value) line_.
Proof.
  intros Hin Haux Hflag Hok.
  destruct (select_model_completed _ _ Hok) as [_ Hline].
  destruct (Hline Hflag) as [line_ Hl]. exists line_. split; [exact Hl|].
  apply select_model_auxiliary in Hl. destruct Hl as (_ & ->).
  apply in_or_app. right.
  apply (selected_In _ _ _ _ _ Hin). apply auxvars_selected. exact Haux.
Qed.

(** ** Definedness gating *)

(** C1, counterexample: with [print-auxvars] set, the valuation of an
    auxiliary variable that has no [defined] atom is printed on the
    auxiliary line. *)
Lemma undefined_auxiliary_is_printed :
  let model := {| atoms := []; shown := [];
                  theory := [Function CSP [sample_aux; Number 5] true] |} in
  In (Function CSP [sample_aux; Number 5] true) (theory model)
  /\ ~ In (Function (defined auxvars_config) [sample_aux] true) (atoms model)
  /\ print_model auxvars_config model
     = {| lines := [EmptyString; "val(__aux(1),5)"]; raised := None |}
  /\ select_model auxvars_config model
     = {| entries := [[]; [Val sample_aux (Number 5)]]; failed := None |}
  /\ entries (select_model auxvars_config model) !! 1%nat
     = Some [Val sample_aux (Number 5)].
Proof.
  split; [simpl; tauto|]. split; [simpl; tauto|].
  split; [reflexivity|]. split; reflexivity.
Qed.

(** C1, as amended: a variable V of a two-argument [__csp] atom that has
    no true [defined(V)] atom has no [val(V,...)] entry on the primary
    line, whatever the flag; it has none on the auxiliary line unless
    the flag is set and V has the auxiliary functor, and then
    [val(V,Value)] is on the auxiliary line of every call that ends
    without an exception. *)
Theorem definedness_gating config model variable value pos :
  In (Function CSP [variable; value] pos) (theory model) ->
  ~ In (Function (defined config) [variable] true) (atoms model) ->
  print_model config model = render_selected (select_model config model)
  /\ (forall line_ value',
        entries (select_model config model) !! 0%nat = Some line_ ->
        ~ In (Val variable value') line_)
  /\ (print_aux config = false ->
      entries (select_model config model) !! 1%nat = None)
  /\ (is_auxiliary variable = false ->
      forall line_ value',
        entries (select_model config model) !! 1%nat = Some line_ ->
        ~ In (Val variable value') line_)
  /\ (print_aux config = true -> is_auxiliary variable = true ->
      failed (select_model config model) = None ->
      exists line_, entries (select_model config model) !! 1%nat = Some line_
                    /\ In (Val variable value) line_).
Proof.
  intros Hin Hdef. apply is_defined_not_In in Hdef.
  split; [apply print_model_select|]. repeat split.
  - intros line_ value' Hl Hv.
    pose proof (primary_only_visible _ _ _ _ _ Hl Hv) as Hc.
    unfold classify in Hc. rewrite Hdef in Hc. discriminate.
  - apply select_model_no_auxiliary.
  - intros Haux line_ value' Hl Hv.
    rewrite (auxiliary_only_aux _ _ _ _ _ Hl Hv) in Haux. discriminate.
  - intros Hflag Haux Hok. exact (auxiliary_has_aux _ _ _ _ _ Hin Haux Hflag Hok).
Qed.

Lemma definedness_gating_witness :
  In (Function CSP [sample_y; Number 0] true) (theory sample_model)
  /\ ~ In (Function (defined auxvars_config) [sample_y] true) (atoms sample_model)
  /\ forall line_ value',
       entries (select_model auxvars_config sample_model) !! 1%nat = Some line_ ->
       ~ In (Val sample_y value') line_.
Proof.
  assert (~ In (Function (defined auxvars_config) [sample_y] true)
            (atoms sample_model)) as H
    by (simpl; intros [H|[H|[H|[H|[]]]]]; discriminate H).
  split; [simpl; tauto|]. split; [exact H|].
  apply (definedness_gating auxvars_config sample_model sample_y (Number 0) true);
    [simpl; tauto | exact H | reflexivity].
Defined.

(** ** Auxiliary gating *)

(** C3, counterexample: with the flag set, the valuation of a defined
    auxiliary variable is on no line when a shown number makes the call
    end in [RuntimeError] before anything is printed. *)
Lemma auxiliary_valuation_lost_on_exception :
  let model := {| atoms := [Function DEF [sample_aux] true];
                  shown := [Function "p" [] true; Number 5];
                  theory := [Function CSP [sample_aux; Number 7] true] |} in
  In (Function CSP [sample_aux; Number 7] true) (theory model)
  /\ is_auxiliary sample_aux = true
  /\ In (Function (defined auxvars_config) [sample_aux] true) (atoms model)
  /\ print_aux auxvars_config = true
  /\ print_model auxvars_config model
     = {| lines := []; raised := Some RuntimeError |}
  /\ entries (select_model auxvars_config model) !! 1%nat = None.
Proof.
  split; [simpl; tauto|]. split; [reflexivity|]. split; [simpl; tauto|].
  split; [reflexivity|]. split; reflexivity.
Qed.

(** C3, as amended: the valuation of a defined variable with the
    auxiliary functor is never on the primary line; without the flag
    there is no auxiliary line, so it is printed nowhere; with the flag
    it is on the auxiliary line of every call that ends without an
    exception, and calls on models whose shown symbols and theory atoms
    are function symbols with function-symbol variables end so. *)
Theorem auxiliary_gating config model variable value pos :
  In (Function CSP [variable; value] pos) (theory model) ->
  is_auxiliary variable = true ->
  In (Function (defined config) [variable] true) (atoms model) ->
  print_model config model = render_selected (select_model config model)
  /\ classify config model variable = hidden_auxiliary
  /\ (forall line_ value',
        entries (select_model config model) !! 0%nat = Some line_ ->
        ~ In (Val variable value') line_)
  /\ (print_aux config = false ->
      entries (select_model config model) !! 1%nat = None)
  /\ (print_aux config = true ->
      failed (select_model config model) = None ->
      exists line_, entries (select_model config model) !! 1%nat = Some line_
                    /\ In (Val variable value) line_)
  /\ (well_formed model = true -> failed (select_model config model) = None).
Proof.
  intros Hin Haux Hdef. apply is_defined_In in Hdef.
  assert (classify config model variable = hidden_auxiliary) as Hc.
  { unfold classify. rewrite Hdef, Haux. reflexivity. }
  split; [apply print_model_select|]. split; [exact Hc|]. repeat split.
  - intros line_ value' Hl Hv.
    rewrite (primary_only_visible _ _ _ _ _ Hl Hv) in Hc. discriminate.
  - apply select_model_no_auxiliary.
  - intros Hflag Hok. exact (auxiliary_has_aux _ _ _ _ _ Hin Haux Hflag Hok).
  - apply well_formed_completes.
Qed.

Lemma auxiliary_gating_witness :
  In (Function CSP [sample_aux; Number 7] true) (theory sample_model)
  /\ is_auxiliary sample_aux = true
  /\ In (Function (defined auxvars_config) [sample_aux] true) (atoms sample_model)
  /\ exists line_,
       entries (select_model auxvars_config sample_model) !! 1%nat = Some line_
       /\ In (Val sample_aux (Number 7)) line_.
Proof.
  split; [simpl; tauto|]. split; [reflexivity|]. split; [simpl; tauto|].
  apply (auxiliary_gating auxvars_config sample_model sample_aux (Number 7) true);
    [simpl; tauto | reflexivity | simpl; tauto | reflexivity | reflexivity].
Defined.

(** ** The primary line *)

(** C4, counterexample: a shown atom with the name of the defined
    predicate and two arguments is printed on the primary line, so the
    line is not the one obtained by leaving out the atoms of that
    name. *)
Lemma primary_line_keeps_binary_marker :
  let model := {| atoms := [];
                  shown := [Function DEF [sample_x; sample_y] true];
                  theory := [] |} in
  print_model default_config model
  = {| lines := ["__def(x,y)"]; raised := None |}
  /\ join " " (map render (spec_primary_by_name default_config model)) = EmptyString.
Proof. vm_compute. auto. Qed.

(** C4, as amended: the primary line is the text of the shown atoms
    other than those with the name of the defined predicate and exactly
    one argument, followed by one [val(variable,value)] term for every
    visible valuation, joined by single spaces; it is printed for every
    well-formed model. *)
Theorem primary_line_contents config model :
  (forall line_,
     entries (select_model config model) !! 0%nat = Some line_ ->
     line_ = spec_primary config model)
  /\ (forall text,
        lines (print_model config model) !! 0%nat = Some text ->
        text = join " " (map render (spec_primary config model)))
  /\ (well_formed model = true ->
      lines (print_model config model) !! 0%nat
      = Some (join " " (map render (spec_primary config model)))).
Proof.
  assert (forall line_,
            entries (select_model config model) !! 0%nat = Some line_ ->
            line_ = spec_primary config model) as Hentries.
  { intros line_ Hl. apply select_model_primary in Hl.
    destruct Hl as (Hq1 & Hq2 & ->). unfold spec_primary, visible_vals.
    rewrite (shown_selected_filter _ _ Hq1), (valuation_selected_visible _ _ _ Hq2).
    reflexivity. }
  assert (forall text,
            lines (print_model config model) !! 0%nat = Some text ->
            exists line_, entries (select_model config model) !! 0%nat = Some line_
                          /\ text = join " " (map render line_)) as Htext.
  { intros text. rewrite print_model_select. unfold render_selected. simpl.
    destruct (entries (select_model config model)) as [|line_ rest]; [discriminate|].
    simpl. intros H. inversion H. eauto. }
  split; [exact Hentries|]. split.
  - intros text Ht. destruct (Htext text Ht) as [line_ [Hl ->]].
    rewrite (Hentries line_ Hl). reflexivity.
  - intros Hwf. pose proof (well_formed_completes config model Hwf) as Hok.
    destruct (select_model_completed _ _ Hok) as [[line_ Hl] _].
    rewrite print_model_select. unfold render_selected. simpl.
    destruct (entries (select_model config model)) as [|line' rest]; [discriminate|].
    simpl in *. inversion Hl; subst. rewrite (Hentries line_ eq_refl). reflexivity.
Qed.

Lemma primary_line_contents_witness :
  well_formed sample_model = true
  /\ lines (print_model default_config sample_model) !! 0%nat
     = Some (join " " (map render (spec_primary default_config sample_model))).
Proof.
  split; [reflexivity|].
  apply (primary_line_contents default_config sample_model). reflexivity.
Defined.

(** ** The marker filter *)

(** C10, counterexample: beside a shown number, a shown atom with the
    name of the defined predicate and two arguments is not printed: the
    call ends in [RuntimeError] before the primary line. *)
Lemma binary_marker_lost_on_exception :
  let model := {| atoms := [];
                  shown := [Function DEF [sample_x; sample_y] true; Number 5];
                  theory := [] |} in
  In (Function (defined default_config) [sample_x; sample_y] true) (shown model)
  /\ print_model default_config model
     = {| lines := []; raised := Some RuntimeError |}
  /\ entries (select_model default_config model) !! 0%nat = None.
Proof.
  split; [simpl; tauto|]. split; reflexivity.
Qed.

(** C10, as amended: a shown atom with the name of the defined
    predicate and a number of arguments other than 1 is on the primary
    line whenever that line is printed, as it is for every model whose
    shown symbols and theory atoms are function symbols with
    function-symbol variables, and never among the entries of the
    auxiliary line. *)
Theorem marker_filter_arity config model args pos :
  In (Function (defined config) args pos) (shown model) ->
  length args <> 1%nat ->
  print_model config model = render_selected (select_model config model)
  /\ (forall line_,
        entries (select_model config model) !! 0%nat = Some line_ ->
        In (Atom (Function (defined config) args pos)) line_)
  /\ (forall line_,
        entries (select_model config model) !! 1%nat = Some line_ ->
        ~ In (Atom (Function (defined config) args pos)) line_)
  /\ (well_formed model = true ->
      exists line_, entries (select_model config model) !! 0%nat = Some line_).
Proof.
  intros Hin Hlen.
  assert (defined_marker config (Function (defined config) args pos) = false) as Hm.
  { destruct (defined_marker config (Function (defined config) args pos)) eqn:E;
      [|reflexivity].
    apply defined_marker_arity in E. contradiction. }
  split; [apply print_model_select|]. repeat split.
  - intros line_ Hl. apply select_model_primary in Hl.
    destruct Hl as (Hq & _ & ->). apply in_or_app. left.
    apply (selected_In _ _ _ _ _ Hin).
    rewrite List.Forall_forall in Hq.
    rewrite (shown_selected_quiet _ _ (Hq _ Hin)), Hm. reflexivity.
  - intros line_ Hl Hatom. apply select_model_auxiliary in Hl.
    destruct Hl as (_ & ->). apply in_app_or in Hatom.
    destruct Hatom as [H|H]; apply In_selected in H; destruct H as [a [_ Hs]].
    + apply defs_selected_inv in Hs. destruct Hs as [E Hd].
      inversion E; subst. rewrite Hm in Hd. discriminate.
    + apply val_entry_selected_shape in Hs. destruct Hs as (v & x & E).
      discriminate.
  - intros Hwf. pose proof (well_formed_completes config model Hwf) as Hok.
    destruct (select_model_completed _ _ Hok) as [H _]. exact H.
Qed.

Lemma marker_filter_arity_witness :
  In (Function (defined auxvars_config) [sample_x; sample_x] true) (shown sample_model)
  /\ well_formed sample_model = true
  /\ exists line_,
       entries (select_model auxvars_config sample_model) !! 0%nat = Some line_
       /\ In (Atom (Function (defined auxvars_config) [sample_x; sample_x] true)) line_.
Proof.
  assert (In (Function (defined auxvars_config) [sample_x; sample_x] true)
            (shown sample_model)) as Hin by (simpl; tauto).
  assert (length [sample_x; sample_x] <> 1%nat) as Hlen by (simpl; lia).
  split; [exact Hin|]. split; [reflexivity|].
  destruct (marker_filter_arity auxvars_config sample_model [sample_x; sample_x] true
              Hin Hlen) as (_ & Hon & _ & Hex).
  destruct (Hex eq_refl) as [line_ Hl].
  exists line_. split; [exact Hl | exact (Hon line_ Hl)].
Defined.

(** ** The defined-predicate option *)

(** The names the specification accepts and rejects. *)
Lemma valid_defined_name_examples :
  valid_defined_name "ok_name" = true /\ valid_defined_name "a1" = true
  /\ valid_defined_name "Bad" = false /\ valid_defined_name EmptyString = false
  /\ valid_defined_name "1x" = false.
Proof. repeat split; reflexivity. Qed.

(** The parser never accepts a name: it answers false, or raises. *)
Lemma parse_defined_predicate_never_accepts config name_ config' :
  _parse_defined_predicate config name_ <> Ok (true, config').
Proof.
  unfold _parse_defined_predicate, py_and.
  destruct name_ as [|c rest]; simpl; [discriminate|].
  destruct (islower c); simpl; discriminate.
Qed.

(** C2: on the five names of the specification. The two names that
    should be accepted end in [AttributeError], as every name with a
    lowercase first letter does, since [str] has no [contains]; the
    empty name ends in [IndexError]; only ["Bad"] and ["1x"] are
    rejected by the answer false. The configuration is never changed. *)
Theorem parse_defined_predicate_examples config :
  _parse_defined_predicate config "ok_name" = Raise AttributeError
  /\ _parse_defined_predicate config "a1" = Raise AttributeError
  /\ _parse_defined_predicate config "Bad" = Ok (false, config)
  /\ _parse_defined_predicate config EmptyString = Raise IndexError
  /\ _parse_defined_predicate config "1x" = Ok (false, config).
Proof. repeat split; reflexivity. Qed.

(** The parser leaves the integer bounds as they are. *)
Lemma parse_defined_predicate_bounds config name_ b config' :
  _parse_defined_predicate config name_ = Ok (b, config') ->
  min_int config' = min_int config /\ max_int config' = max_int config.
Proof.
  unfold _parse_defined_predicate.
  destruct (_ &&& _) as [[|]|e]; simpl; intros H; inversion H; subst;
    split; reflexivity.
Qed.

(** ** The store *)

Lemma setitem_Some l entries_ key v (h : Store) :
  h !! l = Some entries_ ->
  setitem (VDict l) key v h = Ok (tt, <[l := <[key := v]> entries_]> h).
Proof. intros H. unfold setitem. rewrite H. reflexivity. Qed.

Lemma dict_getitem_Some l entries_ key v (h : Store) :
  h !! l = Some entries_ -> entries_ !! key = Some v ->
  dict_getitem (VDict l) key h = Ok (v, h).
Proof. intros H1 H2. unfold dict_getitem. rewrite H1, H2. reflexivity. Qed.

Lemma fresh_not_allocated (h : Store) l entries_ :
  h !! l = Some entries_ -> fresh (dom h) <> l.
Proof.
  intros H E. apply (is_fresh (dom h)). rewrite E.
  apply elem_of_dom. eauto.
Qed.

(** ** The statistics callback *)

Section Statistics.

Variable Step : Type.
Variable theory_on_statistics : Step -> Value -> Store -> Store.

(** C7: when the accumulator is a dictionary of the store, the
    callback answers true; afterwards the accumulator has a section
    ["flingo"] with the two durations under ["Translation time in
    seconds"] and the three counters next to it, and its other
    entries are as the constraint theory left them. *)
Theorem on_statistics_merges self step l (h : Store) :
  is_Some (theory_on_statistics step (VDict l) h !! l) ->
  exists h' : Store,
    _on_statistics Step theory_on_statistics self step (VDict l) h = Ok (true, h')
    /\ lookup_path h' (VDict l)
         ["flingo"; "Translation time in seconds"; "AST rewriting"]
       = Some (VFloat (rewrite_ast (stats self)))
    /\ lookup_path h' (VDict l)
         ["flingo"; "Translation time in seconds"; "Translation"]
       = Some (VFloat (translate_program (stats self)))
    /\ lookup_path h' (VDict l) ["flingo"; "Number of variables added"]
       = Some (VInt (variables_added (stats self)))
    /\ lookup_path h' (VDict l) ["flingo"; "Number of atoms added"]
       = Some (VInt (atoms_added (stats self)))
    /\ lookup_path h' (VDict l) ["flingo"; "Number of rules added"]
       = Some (VInt (rules_added (stats self)))
    /\ (forall key : string, key <> "flingo" ->
        lookup_path h' (VDict l) [key]
        = lookup_path (theory_on_statistics step (VDict l) h) (VDict l) [key]).
Proof.
  intros [e0 H0]. unfold _on_statistics, py_bind, py_ret.
  set (h1 := theory_on_statistics step (VDict l) h) in *.
  unfold new_dict at 1.
  set (l1 := fresh (dom h1)).
  assert (l1 <> l) as Hl1 by (apply (fresh_not_allocated h1 l e0 H0)).
  set (h2 := <[l1 := ∅]> h1).
  assert (h2 !! l = Some e0) as H2 by (unfold h2; rewrite lookup_insert_ne; auto).
  rewrite (setitem_Some l e0 _ _ h2 H2).
  set (h3 := <[l := <["flingo" := VDict l1]> e0]> h2).
  assert (h3 !! l = Some (<["flingo" := VDict l1]> e0)) as H3
    by (unfold h3; apply lookup_insert_eq).
  rewrite (dict_getitem_Some l _ "flingo" (VDict l1) h3 H3 (lookup_insert_eq _ _ _)).
  unfold new_dict.
  set (l2 := fresh (dom h3)).
  assert (l2 <> l) as Hl2 by (apply (fresh_not_allocated h3 l _ H3)).
  assert (h3 !! l1 = Some ∅) as H3'.
  { unfold h3, h2. rewrite lookup_insert_ne by auto. apply lookup_insert_eq. }
  assert (l2 <> l1) as Hl21 by (apply (fresh_not_allocated h3 l1 _ H3')).
  set (h4 := <[l2 := ∅]> h3).
  assert (h4 !! l1 = Some ∅) as H4 by (unfold h4; rewrite lookup_insert_ne; auto).
  rewrite (setitem_Some l1 _ _ _ h4 H4).
  set (t := "Translation time in seconds").
  set (e1 := <[t := VDict l2]> (∅ : gmap string Value)).
  set (h5 := <[l1 := e1]> h4).
  assert (h5 !! l1 = Some e1) as H5 by (unfold h5; apply lookup_insert_eq).
  rewrite (dict_getitem_Some l1 _ t (VDict l2) h5 H5 (lookup_insert_eq _ _ _)).
  assert (h5 !! l2 = Some ∅) as H5'.
  { unfold h5, h4. rewrite lookup_insert_ne by auto. apply lookup_insert_eq. }
  rewrite (setitem_Some l2 _ _ _ h5 H5').
  set (h6 := <[l2 := _]> h5).
  assert (h6 !! l2 = Some (<["AST rewriting" := VFloat (rewrite_ast (stats self))]> ∅))
    as H6 by (unfold h6; apply lookup_insert_eq).
  rewrite (setitem_Some l2 _ _ _ h6 H6).
  set (e2 := <["Translation" := _]> _).
  set (h7 := <[l2 := e2]> h6).
  assert (h7 !! l1 = Some e1) as H7.
  { unfold h7, h6. rewrite !lookup_insert_ne by auto. exact H5. }
  rewrite (setitem_Some l1 _ _ _ h7 H7).
  set (h8 := <[l1 := _]> h7).
  assert (h8 !! l1 = Some (<["Number of variables added" :=
                               VInt (variables_added (stats self))]> e1))
    as H8 by (unfold h8; apply lookup_insert_eq).
  rewrite (setitem_Some l1 _ _ _ h8 H8).
  set (h9 := <[l1 := _]> h8).
  assert (h9 !! l1 = Some (<["Number of atoms added" := VInt (atoms_added (stats self))]>
                             (<["Number of variables added" :=
                                  VInt (variables_added (stats self))]> e1)))
    as H9 by (unfold h9; apply lookup_insert_eq).
  rewrite (setitem_Some l1 _ _ _ h9 H9).
  set (e3 := <["Number of rules added" := _]> _).
  set (h10 := <[l1 := e3]> h9).
  assert (h10 !! l = Some (<["flingo" := VDict l1]> e0)) as HA.
  { unfold h10, h9, h8, h7, h6, h5, h4. rewrite !lookup_insert_ne by auto. exact H3. }
  assert (h10 !! l1 = Some e3) as HB by (unfold h10; apply lookup_insert_eq).
  assert (h10 !! l2 = Some e2) as HC.
  { unfold h10, h9, h8. rewrite !lookup_insert_ne by auto.
    unfold h7. apply lookup_insert_eq. }
  exists h10. split; [reflexivity|].
  assert (e3 !! t = Some (VDict l2)) as Ht.
  { unfold e3, e1, t. rewrite !lookup_insert_ne by discriminate.
    apply lookup_insert_eq. }
  simpl. rewrite HA, lookup_insert_eq, HB. fold t. rewrite Ht, HC.
  assert (e2 !! "AST rewriting" = Some (VFloat (rewrite_ast (stats self)))) as Ea.
  { unfold e2. rewrite lookup_insert_ne by discriminate. apply lookup_insert_eq. }
  assert (e2 !! "Translation" = Some (VFloat (translate_program (stats self)))) as Eb.
  { unfold e2. apply lookup_insert_eq. }
  assert (e3 !! "Number of variables added"
          = Some (VInt (variables_added (stats self)))) as Ec.
  { unfold e3. rewrite !lookup_insert_ne by discriminate. apply lookup_insert_eq. }
  assert (e3 !! "Number of atoms added" = Some (VInt (atoms_added (stats self)))) as Ed.
  { unfold e3. rewrite lookup_insert_ne by discriminate. apply lookup_insert_eq. }
  assert (e3 !! "Number of rules added" = Some (VInt (rules_added (stats self)))) as Ee.
  { unfold e3. apply lookup_insert_eq. }
  rewrite Ea, Eb, Ec, Ed, Ee.
  split; [reflexivity|]. split; [reflexivity|]. split; [reflexivity|].
  split; [reflexivity|]. split; [reflexivity|].
  intros key Hkey. rewrite H0, lookup_insert_ne by auto. reflexivity.
Qed.

End Statistics.

(** ** The entry point *)

Section Main.

Variable AST : Type.
Variable Rule : Location -> AST -> list AST -> AST.
Variable HBT : Type.
Variable HeadBodyTransformer : HBT.
Variable visit : HBT -> AST -> AST * HBT.
Variable rules_to_add : HBT -> list (AST * list AST).
Variable parse : list string -> list AST.
Variable THEORY : string.
Variable translate : AppConfig -> Statistic -> Statistic.

Local Abbreviation main_ :=
  (main AST Rule HBT HeadBodyTransformer visit rules_to_add parse THEORY translate).
Local Abbreviation rewritten_ := (rewritten AST HBT HeadBodyTransformer visit).
Local Abbreviation hbt_after_ := (hbt_after AST HBT HeadBodyTransformer visit).

(** The loop of [parse_files], from any transformer: the statements
    returned by [visit] are added in order, after what was there. *)
Lemma parse_loop_spec stms : forall hbt trace,
  parse_loop AST HBT visit hbt stms trace
  = (fold_left (fun hbt stm => snd (visit hbt stm)) stms hbt,
     trace ++ map bld_add
                (imap (fun i stm =>
                         fst (visit (fold_left (fun hbt stm => snd (visit hbt stm))
                                               (take i stms) hbt) stm)) stms)).
Proof.
  induction stms as [|stm stms IH]; intros hbt trace; simpl.
  - rewrite app_nil_r. reflexivity.
  - destruct (visit hbt stm) as [stm' hbt'] eqn:Hv. rewrite IH.
    rewrite <- app_assoc. simpl. unfold compose. simpl. rewrite Hv. reflexivity.
Qed.

Lemma rules_loop_spec loc rules : forall trace,
  rules_loop AST Rule loc rules trace
  = trace ++ map (fun rule => bld_add (materialize AST Rule loc rule)) rules.
Proof.
  induction rules as [|rule rules IH]; intros trace; simpl.
  - rewrite app_nil_r. reflexivity.
  - rewrite IH, <- app_assoc. reflexivity.
Qed.

(** The calls of [main], in order. *)
Lemma main_trace self files now :
  fst (main_ self files now)
  = [theory_register;
     theory_configure "max-int" (pretty (max_int (config self)));
     theory_configure "min-int" (pretty (min_int (config self)));
     parse_files (sources files)]
    ++ map bld_add (rewritten_ (parse (sources files)))
    ++ map (fun rule => bld_add (materialize AST Rule synthetic_location rule))
         (rules_to_add (hbt_after_ (parse (sources files))))
    ++ [control_add "base" [] THEORY; control_ground [("base", [])];
        translator_translate; theory_prepare; control_solve].
Proof.
  unfold main. fold (sources files).
  rewrite parse_loop_spec. simpl. rewrite rules_loop_spec.
  rewrite <- !app_assoc. reflexivity.
Qed.

Lemma builder_adds_map (stms : list AST) :
  builder_adds AST (map bld_add stms) = stms.
Proof.
  unfold builder_adds. induction stms as [|stm stms IH]; [reflexivity|].
  rewrite map_cons, omap_cons, IH. reflexivity.
Qed.

Lemma builder_adds_app (t1 t2 : list (Event AST)) :
  builder_adds AST (t1 ++ t2) = builder_adds AST t1 ++ builder_adds AST t2.
Proof. unfold builder_adds. apply omap_app. Qed.

(** C6: the statements handed to the program builder are the rewritten
    statements, in the order of the parsed ones, followed by the queued
    rules, in the order of the queue, each made a [Rule] at the location
    [("<string>", 1, 1)]. *)
Theorem rewrite_order_preserved self files now :
  let stms := parse (sources files) in
  let rules := rules_to_add (hbt_after_ stms) in
  let adds := builder_adds AST (fst (main_ self files now)) in
  let pos := {| filename := "<string>"; line := 1; column := 1 |} in
  adds = rewritten_ stms
         ++ map (fun rule => Rule {| begin_ := pos; end_ := pos |} (fst rule) (snd rule))
              rules
  /\ length adds = (length stms + length rules)%nat
  /\ (forall (i : nat) stm, stms !! i = Some stm ->
      adds !! i = Some (fst (visit (hbt_after_ (take i stms)) stm)))
  /\ (forall (j : nat) rule, rules !! j = Some rule ->
      adds !! (length stms + j)%nat
      = Some (Rule {| begin_ := pos; end_ := pos |} (fst rule) (snd rule))).
Proof.
  intros stms rules adds pos.
  assert (adds = rewritten_ stms
                 ++ map (fun rule => Rule {| begin_ := pos; end_ := pos |}
                                       (fst rule) (snd rule)) rules) as Hadds.
  { unfold adds. rewrite main_trace, !builder_adds_app, builder_adds_map.
    rewrite <- (map_map (materialize AST Rule synthetic_location) bld_add).
    rewrite builder_adds_map. simpl. rewrite app_nil_r. reflexivity. }
  assert (length (rewritten_ stms) = length stms) as Hlen
    by (unfold rewritten; apply length_imap).
  split; [exact Hadds|]. split; [|split].
  - rewrite Hadds, length_app, length_map, Hlen. reflexivity.
  - intros i stm Hi. rewrite Hadds.
    rewrite lookup_app_l by (rewrite Hlen; apply (lookup_lt_Some _ _ _ Hi)).
    unfold rewritten. rewrite list_lookup_imap, Hi. reflexivity.
  - intros j rule Hj. rewrite Hadds.
    rewrite lookup_app_r by (rewrite Hlen; lia).
    rewrite Hlen. replace (length stms + j - length stms)%nat with j by lia.
    rewrite list_lookup_fmap, Hj. reflexivity.
Qed.

(** C8: with the integer bounds of a new application, whatever the
    other options, [main] configures the theory with [max-int]
    1073741823 and [min-int] -1073741823 before it grounds. *)
Theorem default_integer_bounds print_translation print_auxiliary d statistic
    files now :
  let self := {| config := AppConfig_init MIN_INT MAX_INT print_translation
                             print_auxiliary d;
                 stats := statistic |} in
  config FlingoApp_init = AppConfig_init MIN_INT MAX_INT false false DEF
  /\ exists pre post,
       fst (main_ self files now) = pre ++ control_ground [("base", [])] :: post
       /\ In (theory_configure "max-int" "1073741823") pre
       /\ In (theory_configure "min-int" "-1073741823") pre
       /\ ~ In (control_ground [("base", [])]) pre.
Proof.
  intros self. split; [reflexivity|].
  rewrite main_trace.
  set (adds1 := map bld_add _). set (adds2 := map _ _).
  exists ([theory_register;
           theory_configure "max-int" (pretty (max_int (config self)));
           theory_configure "min-int" (pretty (min_int (config self)));
           parse_files (sources files)] ++ adds1 ++ adds2
          ++ [control_add "base" [] THEORY]),
    [translator_translate; theory_prepare; control_solve].
  split; [rewrite <- !app_assoc; reflexivity|].
  split; [simpl; tauto|]. split; [simpl; tauto|].
  intros Hin. rewrite !in_app_iff in Hin.
  destruct Hin as [Hin|[Hin|[Hin|Hin]]].
  - simpl in Hin. intuition discriminate.
  - unfold adds1 in Hin. apply in_map_iff in Hin.
    destruct Hin as [x [Hx _]]. discriminate.
  - unfold adds2 in Hin. apply in_map_iff in Hin.
    destruct Hin as [x [Hx _]]. discriminate.
  - simpl in Hin. intuition discriminate.
Qed.

(** C9: [main] hands [parse_files] the given files, or the single
    marker ["-"], which [_read] takes for the standard input, when none
    is given; it never hands it an empty list. *)
Theorem empty_files_read_stdin self files now :
  In (parse_files (sources files)) (fst (main_ self files now))
  /\ (forall fs, In (parse_files fs) (fst (main_ self files now)) ->
      fs = sources files /\ fs <> [])
  /\ sources [] = ["-"]
  /\ _read "-" = sys_stdin.
Proof.
  rewrite main_trace. split; [simpl; tauto|]. split; [|split; reflexivity].
  intros fs Hin.
  assert (fs = sources files) as ->.
  { rewrite !in_app_iff in Hin. destruct Hin as [Hin|[Hin|[Hin|Hin]]].
    - simpl in Hin. destruct Hin as [H|[H|[H|[H|[]]]]]; try discriminate.
      inversion H. reflexivity.
    - apply in_map_iff in Hin. destruct Hin as [x [Hx _]]. discriminate.
    - apply in_map_iff in Hin. destruct Hin as [x [Hx _]]. discriminate.
    - simpl in Hin. intuition discriminate. }
  split; [reflexivity|]. destruct files; discriminate.
Qed.

End Main.

(** ** The properties on the sample run *)

Lemma on_statistics_merges_witness :
  is_Some (sample_store !! 0%nat)
  /\ exists h' : Store,
       sample_on_statistics FlingoApp_init = Ok (true, h')
       /\ lookup_path h' (VDict 0%nat) ["flingo"; "Number of rules added"]
          = Some (VInt 0).
Proof.
  assert (is_Some (sample_store !! 0%nat)) as H by (exists ∅; reflexivity).
  split; [exact H|].
  destruct (on_statistics_merges unit (fun _ _ h => h) FlingoApp_init tt 0%nat
              sample_store H) as (h' & Hr & _ & _ & _ & _ & Hn & _).
  exists h'. split; [exact Hr | exact Hn].
Defined.

Lemma rewrite_order_preserved_witness :
  sample_parse (sources []) !! 1%nat = Some "b"
  /\ builder_adds string (fst (sample_main FlingoApp_init [])) !! 1%nat = Some "b'"
  /\ builder_adds string (fst (sample_main FlingoApp_init [])) !! 3%nat
     = Some "defined(b) :- b.".
Proof.
  pose proof (rewrite_order_preserved string sample_Rule
                (list (string * list string)) [] sample_visit (fun hbt => hbt)
                sample_parse "#theory." (fun _ s => s) FlingoApp_init []
                (fun n => inject_Z (Z.of_nat n))) as (_ & _ & Hi & Hj).
  split; [reflexivity|]. split.
  - exact (Hi 1%nat "b" eq_refl).
  - exact (Hj 1%nat ("defined(b)", ["b"]) eq_refl).
Defined.

Lemma empty_files_read_stdin_witness :
  In (parse_files ["-"]) (fst (sample_main FlingoApp_init []))
  /\ (["-"] : list string) <> [].
Proof.
  pose proof (empty_files_read_stdin string sample_Rule
                (list (string * list string)) [] sample_visit (fun hbt => hbt)
                sample_parse "#theory." (fun _ s => s) FlingoApp_init []
                (fun n => inject_Z (Z.of_nat n))) as (Hin & Hfs & _).
  split; [exact Hin|]. exact (proj2 (Hfs ["-"] Hin)).
Defined.

(** * Further properties *)

(** ** Exceptions of the comprehensions *)

Lemma comprehension_ext {A B : Type} (c1 c2 : A -> result bool)
    (f1 f2 : A -> result B) (l : list A) :
  (forall x, c1 x = c2 x) -> (forall x, f1 x = f2 x) ->
  comprehension c1 f1 l = comprehension c2 f2 l.
Proof.
  intros Hc Hf. induction l as [|x l IH]; simpl; [reflexivity|].
  rewrite Hc, Hf, IH. reflexivity.
Qed.

(** An exception of a comprehension is the exception of one of its
    elements. *)
Lemma comprehension_Raise_inv {A B : Type} (cond : A -> result bool)
    (f : A -> result B) (l : list A) (e : PyError) :
  comprehension cond f l = Raise e ->
  exists x, In x l /\ (cond x = Raise e \/ (cond x = Ok true /\ f x = Raise e)).
Proof.
  induction l as [|x l IH]; simpl; [discriminate|].
  destruct (cond x) as [[|]|e'] eqn:Hc; simpl.
  - destruct (f x) as [y|e'] eqn:Hf; simpl.
    + destruct (comprehension cond f l) as [rest|e'] eqn:Hr; simpl; [discriminate|].
      intros H. inversion H; subst. destruct (IH eq_refl) as [z [Hz Hz']].
      exists z. split; [right; exact Hz | exact Hz'].
    + intros H. inversion H; subst. exists x. split; [left; reflexivity|].
      right. split; [exact Hc | exact Hf].
  - intros H. destruct (IH H) as [z [Hz Hz']].
    exists z. split; [right; exact Hz | exact Hz'].
  - intros H. inversion H; subst. exists x. split; [left; reflexivity|].
    left. exact Hc.
Qed.

(** A comprehension with an element that is not quiet raises. *)
Lemma comprehension_not_quiet {A B : Type} (cond : A -> result bool)
    (f : A -> result B) (l : list A) (x : A) :
  In x l -> ~ quiet cond f x -> exists e, comprehension cond f l = Raise e.
Proof.
  intros Hx Hq. destruct (comprehension cond f l) as [ys|e] eqn:Hc; [|eauto].
  apply comprehension_Ok_inv in Hc. destruct Hc as [_ HF].
  rewrite List.Forall_forall in HF. destruct (Hq (HF x Hx)).
Qed.

(** ** Which symbols are read without an exception *)

Lemma quiet_shown config a :
  quiet (fun atom => py_not (is_marker config atom)) (fun atom => Ok (Atom atom)) a
  <-> is_function a = true.
Proof.
  split.
  - intros [b [Hc _]]. destruct a; try discriminate. reflexivity.
  - intros Hf. destruct a; try discriminate. unfold quiet.
    rewrite is_marker_function. simpl. eauto.
Qed.

Lemma quiet_defs config a :
  quiet (is_marker config) (fun atom => Ok (Atom atom)) a <-> is_function a = true.
Proof.
  split.
  - intros [b [Hc _]]. destruct a; try discriminate. reflexivity.
  - intros Hf. destruct a; try discriminate. unfold quiet.
    rewrite is_marker_function. eauto.
Qed.

Lemma quiet_valuation config model a :
  quiet (valuation_cond config model) val_entry a
  <-> theory_atom_clean (set_print_aux config false) model a = true.
Proof.
  destruct a as [| |n args pos| |];
    try (split; [intros [b [Hc _]]; discriminate Hc | discriminate]).
  unfold quiet, theory_atom_clean. rewrite valuation_cond_function.
  change (is_defined (set_print_aux config false) model)
    with (is_defined config model).
  destruct (constraint_valuation (Function n args pos)) as [[v x]|] eqn:Hcv.
  - destruct (constraint_valuation_Some _ _ _ Hcv) as [pos' E]. inversion E; subst.
    simpl. rewrite orb_false_r. destruct (is_defined config model v).
    + destruct v; simpl; split; intros H; try reflexivity; try discriminate H;
        eauto; destruct H as [b [Hc _]]; discriminate Hc.
    + split; [reflexivity|]. intros _. exists false. split; [reflexivity|discriminate].
  - split; [reflexivity|]. intros _. exists false. split; [reflexivity|discriminate].
Qed.

Lemma quiet_auxvars config model a :
  quiet auxvars_cond val_entry a
  <-> theory_atom_clean (set_print_aux config true) model a = true.
Proof.
  destruct a as [| |n args pos| |];
    try (split; [intros [b [Hc _]]; discriminate Hc | discriminate]).
  unfold quiet, theory_atom_clean. rewrite auxvars_cond_function.
  destruct (constraint_valuation (Function n args pos)) as [[v x]|] eqn:Hcv.
  - destruct (constraint_valuation_Some _ _ _ Hcv) as [pos' E]. inversion E; subst.
    simpl. rewrite orb_true_r.
    destruct v; simpl; split; intros H; try reflexivity; try discriminate H;
      eauto; destruct H as [b [Hc _]]; discriminate Hc.
  - split; [reflexivity|]. intros _. exists false. split; [reflexivity|discriminate].
Qed.

Lemma theory_atom_clean_split config model a :
  theory_atom_clean config model a = true
  <-> theory_atom_clean (set_print_aux config false) model a = true
      /\ (print_aux config = true ->
          theory_atom_clean (set_print_aux config true) model a = true).
Proof.
  unfold theory_atom_clean.
  change (is_defined (set_print_aux config false) model)
    with (is_defined config model).
  change (is_defined (set_print_aux config true) model)
    with (is_defined config model).
  destruct a as [| |n args pos| |]; simpl; try (split; [discriminate | tauto]).
  destruct (match args with [variable; value] => _ | _ => _ end) as [[v x]|];
    [|tauto].
  rewrite orb_false_r, orb_true_r.
  destruct (print_aux config), (is_defined config model v), (is_function v);
    simpl; split; try tauto; try discriminate; intros [H1 H2]; auto.
Qed.

Lemma runs_clean_quiet config model :
  runs_clean config model = true
  <-> Forall (quiet (fun atom => py_not (is_marker config atom))
                    (fun atom => Ok (Atom atom))) (shown model)
      /\ Forall (quiet (valuation_cond config model) val_entry) (theory model)
      /\ (print_aux config = true ->
          Forall (quiet auxvars_cond val_entry) (theory model)).
Proof.
  unfold runs_clean. rewrite andb_true_iff, !forallb_forall, !List.Forall_forall.
  split.
  - intros [Hs Ht]. split; [|split].
    + intros a Ha. apply quiet_shown. auto.
    + intros a Ha. apply quiet_valuation.
      apply (theory_atom_clean_split config model a). auto.
    + intros Hflag a Ha. apply (quiet_auxvars config model).
      apply (theory_atom_clean_split config model a); auto.
  - intros (Hs & Hv & Ha). split.
    + intros a Hin. apply (quiet_shown config). auto.
    + intros a Hin. apply theory_atom_clean_split. split.
      * apply quiet_valuation. auto.
      * intros Hflag. apply (quiet_auxvars config model). auto.
Qed.

Lemma defs_selected_filter config l :
  Forall (quiet (is_marker config) (fun atom => Ok (Atom atom))) l ->
  omap (selected (is_marker config) (fun atom => Ok (Atom atom))) l
  = map Atom (List.filter (defined_marker config) l).
Proof.
  induction 1 as [|a l Ha _ IH]; [reflexivity|].
  rewrite omap_cons, IH. simpl. apply quiet_defs in Ha.
  destruct a; try discriminate. unfold selected. rewrite is_marker_function.
  destruct (defined_marker config _); reflexivity.
Qed.

Lemma auxvars_selected_quiet a :
  quiet auxvars_cond val_entry a ->
  selected auxvars_cond val_entry a
  = match constraint_valuation a with
    | Some (variable, value) =>
        if is_auxiliary variable then Some (Val variable value) else None
    | None => None
    end.
Proof.
  intros [b [Hc Hf]]. unfold selected.
  destruct a as [| |n args pos| |]; try discriminate.
  rewrite auxvars_cond_function in *.
  destruct (constraint_valuation (Function n args pos)) as [[v x]|] eqn:Hcv;
    [|reflexivity].
  destruct (constraint_valuation_Some _ _ _ Hcv) as [pos' Ha].
  inversion Ha; subst.
  destruct v as [| |n0 vargs vpos| |]; simpl in *; try discriminate.
  destruct (String.eqb n0 AUX); reflexivity.
Qed.

Lemma auxvars_selected_vals l :
  Forall (quiet auxvars_cond val_entry) l ->
  omap (selected auxvars_cond val_entry) l
  = omap (fun a =>
            match constraint_valuation a with
            | Some (variable, value) =>
                if is_auxiliary variable then Some (Val variable value) else None
            | None => None
            end) l.
Proof.
  induction 1 as [|a l Ha _ IH]; [reflexivity|].
  rewrite !omap_cons, (auxvars_selected_quiet _ Ha), IH. reflexivity.
Qed.

(** The entries of a run on which no attribute access raises. *)
Lemma select_model_clean config model :
  runs_clean config model = true ->
  select_model config model
  = {| entries := spec_primary config model
                  :: (if print_aux config then [auxiliary_line config model] else []);
       failed := None |}.
Proof.
  intros Hc. apply runs_clean_quiet in Hc. destruct Hc as (Q1 & Q3 & Q4).
  assert (Forall (quiet (is_marker config) (fun atom => Ok (Atom atom)))
            (shown model)) as Q2.
  { rewrite List.Forall_forall in *. intros a Ha. apply quiet_defs.
    apply (quiet_shown config). auto. }
  unfold select_model.
  rewrite (comprehension_quiet _ _ _ Q1), (comprehension_quiet _ _ _ Q3).
  rewrite (shown_selected_filter _ _ Q1), (valuation_selected_visible _ _ _ Q3).
  fold (visible_vals config model). fold (spec_primary config model).
  destruct (print_aux config); [|reflexivity].
  specialize (Q4 eq_refl).
  rewrite (comprehension_quiet _ _ _ Q2), (comprehension_quiet _ _ _ Q4).
  rewrite (defs_selected_filter _ _ Q2), (auxvars_selected_vals _ Q4).
  reflexivity.
Qed.

Lemma select_model_failed_None config model :
  failed (select_model config model) = None <-> runs_clean config model = true.
Proof.
  split; [|intros H; rewrite (select_model_clean _ _ H); reflexivity].
  intros H. apply runs_clean_quiet. unfold select_model in H.
  destruct (comprehension _ _ (shown model)) as [sh|e] eqn:H1; [|discriminate].
  destruct (comprehension (valuation_cond config model) _ _) as [va|e] eqn:H2;
    [|discriminate].
  apply comprehension_Ok_inv in H1, H2.
  split; [tauto|]. split; [tauto|]. intros Hflag. rewrite Hflag in H.
  destruct (comprehension (is_marker config) _ _) as [ds|e]; [|discriminate].
  destruct (comprehension auxvars_cond _ _) as [av|e] eqn:H4; [|discriminate].
  apply comprehension_Ok_inv in H4. tauto.
Qed.

Lemma is_marker_Raise config a e :
  is_marker config a = Raise e -> e = RuntimeError.
Proof.
  destruct a; try (rewrite is_marker_function; discriminate);
    unfold is_marker, py_and; simpl; intros H; inversion H; reflexivity.
Qed.

Lemma valuation_cond_Raise config model a e :
  valuation_cond config model a = Raise e -> e = RuntimeError.
Proof.
  destruct a as [| |n args pos| |];
    try (unfold valuation_cond, py_and; simpl; intros H; inversion H; reflexivity).
  rewrite valuation_cond_function.
  destruct (constraint_valuation _) as [[v x]|]; [|discriminate].
  destruct (is_defined config model v); [|discriminate].
  destruct v; simpl; try discriminate; intros H; inversion H; reflexivity.
Qed.

Lemma auxvars_cond_Raise a e :
  auxvars_cond a = Raise e -> e = RuntimeError.
Proof.
  destruct a as [| |n args pos| |];
    try (unfold auxvars_cond, py_and; simpl; intros H; inversion H; reflexivity).
  rewrite auxvars_cond_function.
  destruct (constraint_valuation _) as [[v x]|]; [|discriminate].
  destruct v; simpl; try discriminate; intros H; inversion H; reflexivity.
Qed.

(** Behind the length test, the two arguments are there. *)
Lemma val_entry_after_valuation_cond config model a :
  valuation_cond config model a = Ok true -> exists e, val_entry a = Ok e.
Proof.
  destruct a as [| |n args pos| |]; try discriminate.
  rewrite valuation_cond_function.
  destruct (constraint_valuation _) as [[v x]|] eqn:Hcv; [|discriminate].
  destruct (constraint_valuation_Some _ _ _ Hcv) as [pos' E]. inversion E; subst.
  simpl. eauto.
Qed.

Lemma val_entry_after_auxvars_cond a :
  auxvars_cond a = Ok true -> exists e, val_entry a = Ok e.
Proof.
  destruct a as [| |n args pos| |]; try discriminate.
  rewrite auxvars_cond_function.
  destruct (constraint_valuation _) as [[v x]|] eqn:Hcv; [|discriminate].
  destruct (constraint_valuation_Some _ _ _ Hcv) as [pos' E]. inversion E; subst.
  simpl. eauto.
Qed.

Lemma shown_comprehension_Raise config l e :
  comprehension (fun atom => py_not (is_marker config atom))
    (fun atom => Ok (Atom atom)) l = Raise e -> e = RuntimeError.
Proof.
  intros H. apply comprehension_Raise_inv in H.
  destruct H as [a [_ [H|[_ H]]]]; [|discriminate].
  unfold py_not in H. destruct (is_marker config a) as [b|e'] eqn:Hm; [discriminate|].
  simpl in H. inversion H; subst. exact (is_marker_Raise _ _ _ Hm).
Qed.

Lemma defs_comprehension_Raise config l e :
  comprehension (is_marker config) (fun atom => Ok (Atom atom)) l = Raise e ->
  e = RuntimeError.
Proof.
  intros H. apply comprehension_Raise_inv in H.
  destruct H as [a [_ [H|[_ H]]]]; [|discriminate].
  exact (is_marker_Raise _ _ _ H).
Qed.

Lemma valuation_comprehension_Raise config model l e :
  comprehension (valuation_cond config model) val_entry l = Raise e ->
  e = RuntimeError.
Proof.
  intros H. apply comprehension_Raise_inv in H.
  destruct H as [a [_ [H|[Hc H]]]].
  - exact (valuation_cond_Raise _ _ _ _ H).
  - destruct (val_entry_after_valuation_cond _ _ _ Hc) as [y Hy].
    rewrite Hy in H. discriminate.
Qed.

Lemma auxvars_comprehension_Raise l e :
  comprehension auxvars_cond val_entry l = Raise e -> e = RuntimeError.
Proof.
  intros H. apply comprehension_Raise_inv in H.
  destruct H as [a [_ [H|[Hc H]]]].
  - exact (auxvars_cond_Raise _ _ H).
  - destruct (val_entry_after_auxvars_cond _ Hc) as [y Hy].
    rewrite Hy in H. discriminate.
Qed.

Lemma select_model_failed_RuntimeError config model e :
  failed (select_model config model) = Some e -> e = RuntimeError.
Proof.
  unfold select_model.
  destruct (comprehension _ _ (shown model)) as [sh|e1] eqn:H1.
  2:{ simpl. intros H. inversion H; subst. exact (shown_comprehension_Raise _ _ _ H1). }
  destruct (comprehension (valuation_cond config model) _ _) as [va|e2] eqn:H2.
  2:{ simpl. intros H. inversion H; subst.
      exact (valuation_comprehension_Raise _ _ _ _ H2). }
  destruct (print_aux config); [|discriminate].
  destruct (comprehension (is_marker config) _ _) as [ds|e3] eqn:H3.
  2:{ simpl. intros H. inversion H; subst. exact (defs_comprehension_Raise _ _ _ H3). }
  destruct (comprehension auxvars_cond _ _) as [av|e4] eqn:H4; [discriminate|].
  simpl. intros H. inversion H; subst. exact (auxvars_comprehension_Raise _ _ H4).
Qed.

Lemma select_model_second_line_complete config model line_ :
  entries (select_model config model) !! 1%nat = Some line_ ->
  failed (select_model config model) = None.
Proof.
  unfold select_model.
  destruct (comprehension _ _ (shown model)) as [sh|e]; [|discriminate].
  destruct (comprehension (valuation_cond config model) _ _) as [va|e];
    [|discriminate].
  destruct (print_aux config); [|discriminate].
  destruct (comprehension (is_marker config) _ _) as [ds|e]; [|discriminate].
  destruct (comprehension auxvars_cond _ _) as [av|e]; [|discriminate].
  reflexivity.
Qed.

Lemma lines_lookup config model (i : nat) :
  lines (print_model config model) !! i
  = (fun line_ => join " " (map render line_))
      <$> entries (select_model config model) !! i.
Proof.
  rewrite print_model_select. unfold render_selected. simpl.
  apply list_lookup_fmap.
Qed.

(** ** The auxiliary line *)

(** X1: the auxiliary line, whenever it is printed, is the text of the
    shown atoms with the name of the defined predicate and exactly one
    argument, in the order of the model, followed by one
    [val(variable,value)] term for every two-argument [__csp] atom whose
    variable has the auxiliary functor, defined or not, joined by single
    spaces; it is printed when the flag is set and no attribute access
    raises. *)
Theorem auxiliary_line_contents config model :
  (forall line_,
     entries (select_model config model) !! 1%nat = Some line_ ->
     print_aux config = true /\ line_ = auxiliary_line config model)
  /\ (forall text,
        lines (print_model config model) !! 1%nat = Some text ->
        text = join " " (map render (auxiliary_line config model)))
  /\ (print_aux config = true -> runs_clean config model = true ->
      lines (print_model config model) !! 1%nat
      = Some (join " " (map render (auxiliary_line config model)))).
Proof.
  assert (forall line_,
            entries (select_model config model) !! 1%nat = Some line_ ->
            print_aux config = true /\ line_ = auxiliary_line config model) as He.
  { intros line_ Hl.
    pose proof (select_model_second_line_complete _ _ _ Hl) as Hok.
    apply select_model_failed_None in Hok.
    rewrite (select_model_clean _ _ Hok) in Hl. simpl in Hl.
    destruct (print_aux config); [|discriminate].
    inversion Hl. auto. }
  split; [exact He|]. split.
  - intros text. rewrite lines_lookup.
    destruct (entries (select_model config model) !! 1%nat) as [line_|] eqn:Hl;
      [|discriminate].
    simpl. intros H. inversion H. destruct (He line_ eq_refl) as [_ ->]. reflexivity.
  - intros Hflag Hc. rewrite lines_lookup, (select_model_clean _ _ Hc), Hflag.
    reflexivity.
Qed.

Lemma auxiliary_line_contents_witness :
  print_aux auxvars_config = true
  /\ runs_clean auxvars_config sample_model = true
  /\ lines (print_model auxvars_config sample_model) !! 1%nat
     = Some "__def(x) val(__aux(1),7)".
Proof.
  split; [reflexivity|]. split; [reflexivity|].
  apply (auxiliary_line_contents auxvars_config sample_model); reflexivity.
Defined.

(** ** Exceptions of [print_model] *)

(** X2: [print_model] raises nothing but [RuntimeError]: behind the
    tests on the number of arguments no index is out of range. *)
Theorem print_model_raises_only_RuntimeError config model e :
  raised (print_model config model) = Some e -> e = RuntimeError.
Proof.
  rewrite print_model_select. apply select_model_failed_RuntimeError.
Qed.

Lemma print_model_raises_only_RuntimeError_witness :
  raised (print_model auxvars_config sample_number_model) = Some RuntimeError
  /\ RuntimeError = RuntimeError.
Proof.
  split; [reflexivity|].
  apply (print_model_raises_only_RuntimeError auxvars_config sample_number_model).
  reflexivity.
Defined.

(** X3: [print_model] ends without an exception exactly when every
    shown symbol and every theory symbol is a function symbol and the
    variable of every two-argument [__csp] atom is a function symbol
    whenever that variable is defined or the flag is set. *)
Theorem print_model_clean_iff config model :
  raised (print_model config model) = None <-> runs_clean config model = true.
Proof.
  rewrite print_model_select. apply select_model_failed_None.
Qed.

Lemma print_model_clean_iff_witness :
  runs_clean default_config sample_number_model = true
  /\ raised (print_model default_config sample_number_model) = None.
Proof.
  split; [reflexivity|].
  apply (print_model_clean_iff default_config sample_number_model). reflexivity.
Defined.

(** X4: a call prints at most two lines; one that ends without an
    exception has printed one line, and a second one exactly when the
    flag is set; a call that printed nothing has raised. *)
Theorem print_model_line_count config model :
  (length (lines (print_model config model)) <= 2)%nat
  /\ (raised (print_model config model) = None ->
      length (lines (print_model config model))
      = if print_aux config then 2%nat else 1%nat)
  /\ (print_aux config = false ->
      (length (lines (print_model config model)) <= 1)%nat)
  /\ (lines (print_model config model) = [] ->
      raised (print_model config model) = Some RuntimeError).
Proof.
  rewrite print_model_select. unfold render_selected. simpl.
  rewrite length_map.
  assert (forall e, failed (select_model config model) = Some e -> e = RuntimeError)
    as HR by apply select_model_failed_RuntimeError.
  revert HR. unfold select_model.
  destruct (comprehension _ _ (shown model)) as [sh|e1].
  2:{ simpl. intros HR. rewrite (HR e1 eq_refl).
      repeat split; try lia; discriminate. }
  destruct (comprehension (valuation_cond config model) _ _) as [va|e2].
  2:{ simpl. intros HR. rewrite (HR e2 eq_refl).
      repeat split; try lia; discriminate. }
  destruct (print_aux config).
  2:{ simpl. intros _. repeat split; try lia; discriminate. }
  destruct (comprehension (is_marker config) _ _) as [ds|e3].
  2:{ simpl. intros _. repeat split; try lia; discriminate. }
  destruct (comprehension auxvars_cond _ _) as [av|e4];
    simpl; intros _; repeat split; try lia; discriminate.
Qed.

Lemma print_model_line_count_witness :
  raised (print_model auxvars_config sample_model) = None
  /\ length (lines (print_model auxvars_config sample_model)) = 2%nat.
Proof.
  split; [reflexivity|].
  apply (print_model_line_count auxvars_config sample_model). reflexivity.
Defined.

(** X5: the primary line depends on the options through the name of
    the defined predicate only: two configurations with the same name
    print the same first line, flag or no flag; and with the same flag
    as well, the whole output is the same, whatever the integer bounds
    and [print-translation]. *)
Theorem primary_line_ignores_other_options config1 config2 model :
  defined config1 = defined config2 ->
  lines (print_model config1 model) !! 0%nat
  = lines (print_model config2 model) !! 0%nat
  /\ (print_aux config1 = print_aux config2 ->
      print_model config1 model = print_model config2 model).
Proof.
  intros Hd.
  assert (forall l, comprehension (fun atom => py_not (is_marker config1 atom))
                      (fun atom => Ok (str atom)) l
                    = comprehension (fun atom => py_not (is_marker config2 atom))
                        (fun atom => Ok (str atom)) l) as E1.
  { intros l. apply comprehension_ext; [|reflexivity].
    intros a. unfold is_marker. rewrite Hd. reflexivity. }
  assert (forall l, comprehension (valuation_cond config1 model) val_str l
                    = comprehension (valuation_cond config2 model) val_str l) as E2.
  { intros l. apply comprehension_ext; [|reflexivity].
    intros a. unfold valuation_cond. rewrite Hd. reflexivity. }
  assert (forall l, comprehension (is_marker config1) (fun atom => Ok (str atom)) l
                    = comprehension (is_marker config2) (fun atom => Ok (str atom)) l)
    as E3.
  { intros l. apply comprehension_ext; [|reflexivity].
    intros a. unfold is_marker. rewrite Hd. reflexivity. }
  unfold print_model. rewrite E1, E2, E3.
  destruct (comprehension _ _ (shown model)) as [sh|e1]; [|split; reflexivity].
  destruct (comprehension (valuation_cond config2 model) _ _) as [va|e2];
    [|split; reflexivity].
  split.
  - destruct (print_aux config1), (print_aux config2);
      repeat (match goal with
              | |- context [match ?c with Ok _ => _ | Raise _ => _ end] => destruct c
              end); reflexivity.
  - intros ->. reflexivity.
Qed.

Lemma primary_line_ignores_other_options_witness :
  defined default_config = defined auxvars_config
  /\ lines (print_model default_config sample_model) !! 0%nat
     = lines (print_model auxvars_config sample_model) !! 0%nat.
Proof.
  split; [reflexivity|].
  apply (primary_line_ignores_other_options default_config auxvars_config sample_model).
  reflexivity.
Defined.

(** X6: a two-argument [__csp] atom whose variable is not a function
    symbol (a number, say) and is not defined does no harm without the
    flag; with the flag, the primary line is printed as before and the
    call then ends in [RuntimeError], without an auxiliary line. *)
Theorem auxiliary_line_raises_after_primary config model variable value pos :
  runs_clean (set_print_aux config false) model = true ->
  In (Function CSP [variable; value] pos) (theory model) ->
  is_function variable = false ->
  raised (print_model (set_print_aux config false) model) = None
  /\ print_model (set_print_aux config true) model
     = {| lines := lines (print_model (set_print_aux config false) model);
          raised := Some RuntimeError |}.
Proof.
  intros Hc Hin Hv. split; rewrite !print_model_select.
  - apply select_model_failed_None. exact Hc.
  - pose proof (select_model_clean _ _ Hc) as Hoff. rewrite Hoff.
    apply runs_clean_quiet in Hc. destruct Hc as (Q1 & Q3 & _).
    assert (Forall (quiet (is_marker config) (fun atom => Ok (Atom atom)))
              (shown model)) as Q2.
    { rewrite List.Forall_forall in *. intros a Ha. apply quiet_defs.
      apply (quiet_shown config). apply (Q1 a Ha). }
    assert (~ quiet auxvars_cond val_entry (Function CSP [variable; value] pos)) as Hq.
    { intros [b [Hb _]]. rewrite auxvars_cond_function in Hb. simpl in Hb.
      destruct variable; discriminate. }
    destruct (comprehension_not_quiet _ _ _ _ Hin Hq) as [e He].
    pose proof (auxvars_comprehension_Raise _ _ He) as ->.
    unfold select_model, render_selected. simpl.
    change (fun atom => py_not (is_marker (set_print_aux config true) atom))
      with (fun atom => py_not (is_marker config atom)).
    change (valuation_cond (set_print_aux config true) model)
      with (valuation_cond config model).
    change (is_marker (set_print_aux config true)) with (is_marker config).
    change (fun atom => py_not (is_marker (set_print_aux config false) atom))
      with (fun atom => py_not (is_marker config atom)) in Q1.
    change (valuation_cond (set_print_aux config false) model)
      with (valuation_cond config model) in Q3.
    rewrite (comprehension_quiet _ _ _ Q1), (comprehension_quiet _ _ _ Q3),
      (comprehension_quiet _ _ _ Q2), He. simpl.
    rewrite (shown_selected_filter _ _ Q1), (valuation_selected_visible _ _ _ Q3).
    reflexivity.
Qed.

Lemma auxiliary_line_raises_after_primary_witness :
  runs_clean (set_print_aux default_config false) sample_number_model = true
  /\ In (Function CSP [Number 3; Number 4] true) (theory sample_number_model)
  /\ is_function (Number 3) = false
  /\ print_model (set_print_aux default_config true) sample_number_model
     = {| lines := ["p val(x,5)"]; raised := Some RuntimeError |}.
Proof.
  split; [reflexivity|]. split; [simpl; tauto|]. split; [reflexivity|].
  apply (auxiliary_line_raises_after_primary default_config sample_number_model
           (Number 3) (Number 4) true); [reflexivity | simpl; tauto | reflexivity].
Defined.

(** X11: a shown symbol that is not a function symbol (a shown number
    or string) makes the call end in [RuntimeError] before anything is
    printed. *)
Theorem shown_term_prints_nothing config model s :
  In s (shown model) -> is_function s = false ->
  print_model config model = {| lines := []; raised := Some RuntimeError |}.
Proof.
  intros Hin Hs.
  assert (~ quiet (fun atom => py_not (is_marker config atom))
              (fun atom => Ok (Atom atom)) s) as Hq.
  { intros H. apply quiet_shown in H. rewrite H in Hs. discriminate. }
  destruct (comprehension_not_quiet _ _ _ _ Hin Hq) as [e He].
  pose proof (shown_comprehension_Raise _ _ _ He) as ->.
  rewrite print_model_select. unfold select_model. rewrite He. reflexivity.
Qed.

Lemma shown_term_prints_nothing_witness :
  In (Number 5) [Function "p" [] true; Number 5]
  /\ print_model default_config
       {| atoms := []; shown := [Function "p" [] true; Number 5]; theory := [] |}
     = {| lines := []; raised := Some RuntimeError |}.
Proof.
  split; [simpl; tauto|].
  apply (shown_term_prints_nothing default_config
           {| atoms := []; shown := [Function "p" [] true; Number 5]; theory := [] |}
           (Number 5)); [simpl; tauto | reflexivity].
Defined.

(** ** What is printed where *)

Lemma filter_partition {A : Type} (p : A -> bool) (l : list A) :
  Permutation (List.filter (fun x => negb (p x)) l ++ List.filter p l) l.
Proof.
  induction l as [|x l IH]; simpl; [constructor|].
  destruct (p x); simpl.
  - rewrite <- Permutation_middle. constructor. exact IH.
  - constructor. exact IH.
Qed.

Lemma omap_partition {A B : Type} (f g h : A -> option B) (l : list A) :
  (forall x, (h x = f x /\ g x = None) \/ (h x = g x /\ f x = None)) ->
  Permutation (omap f l ++ omap g l) (omap h l).
Proof.
  intros H. induction l as [|x l IH]; [constructor|].
  rewrite !omap_cons. destruct (H x) as [[-> ->]|[-> ->]].
  - destruct (f x); simpl; [constructor|]; exact IH.
  - destruct (g x); simpl; [|exact IH].
    rewrite <- Permutation_middle. constructor. exact IH.
Qed.

(** X7: with the flag set and no exception, the two lines together
    hold every shown atom once and the valuation of every two-argument
    [__csp] atom whose variable is defined or auxiliary once: nothing
    is printed twice and nothing else is printed. *)
Theorem lines_partition_entries config model :
  print_aux config = true -> runs_clean config model = true ->
  exists l1 l2,
    entries (select_model config model) = [l1; l2]
    /\ print_model config model = render_selected (select_model config model)
    /\ Permutation (l1 ++ l2) (map Atom (shown model) ++ printed_vals config model).
Proof.
  intros Hflag Hc. rewrite print_model_select, (select_model_clean _ _ Hc), Hflag.
  exists (spec_primary config model), (auxiliary_line config model).
  split; [reflexivity|]. split; [reflexivity|].
  unfold spec_primary, auxiliary_line.
  set (A1 := map Atom (List.filter (fun atom => negb (defined_marker config atom))
                         (shown model))).
  set (A2 := map Atom (List.filter (defined_marker config) (shown model))).
  assert (Permutation (A1 ++ A2) (map Atom (shown model))) as HA.
  { unfold A1, A2. rewrite <- map_app. apply Permutation_map, filter_partition. }
  assert (Permutation (visible_vals config model ++ auxiliary_vals model)
            (printed_vals config model)) as HV.
  { apply omap_partition. intros a.
    destruct (constraint_valuation a) as [[v x]|]; [|left; split; reflexivity].
    unfold classify.
    destruct (is_defined config model v), (is_auxiliary v); simpl;
      (left; split; reflexivity) || (right; split; reflexivity). }
  rewrite <- HA, <- HV.
  rewrite <- !app_assoc. apply Permutation_app_head.
  rewrite !app_assoc. apply Permutation_app_tail. apply Permutation_app_comm.
Qed.

Lemma lines_partition_entries_witness :
  print_aux auxvars_config = true
  /\ runs_clean auxvars_config sample_model = true
  /\ exists l1 l2,
       entries (select_model auxvars_config sample_model) = [l1; l2]
       /\ Permutation (l1 ++ l2)
            (map Atom (shown sample_model) ++ printed_vals auxvars_config sample_model).
Proof.
  split; [reflexivity|]. split; [reflexivity|].
  destruct (lines_partition_entries auxvars_config sample_model eq_refl eq_refl)
    as (l1 & l2 & H1 & _ & H2).
  exists l1, l2. split; assumption.
Defined.

Lemma second_line_is_auxiliary_line config model line_ :
  entries (select_model config model) !! 1%nat = Some line_ ->
  line_ = auxiliary_line config model.
Proof.
  intros Hl. pose proof (select_model_second_line_complete _ _ _ Hl) as Hok.
  apply select_model_failed_None in Hok.
  rewrite (select_model_clean _ _ Hok) in Hl. simpl in Hl.
  destruct (print_aux config); [|discriminate].
  inversion Hl. reflexivity.
Qed.

(** X8: a shown atom with the name of the defined predicate and exactly
    one argument, whatever its sign and its argument, is never on the
    primary line and is on the auxiliary line whenever that line is
    printed. *)
Theorem defined_markers_on_auxiliary_line_only config model argument pos :
  In (Function (defined config) [argument] pos) (shown model) ->
  (forall line_,
     entries (select_model config model) !! 0%nat = Some line_ ->
     ~ In (Atom (Function (defined config) [argument] pos)) line_)
  /\ (forall line_,
        entries (select_model config model) !! 1%nat = Some line_ ->
        In (Atom (Function (defined config) [argument] pos)) line_).
Proof.
  intros Hin.
  assert (defined_marker config (Function (defined config) [argument] pos) = true)
    as Hm by (simpl; apply String.eqb_refl).
  split.
  - intros line_ Hl Hatom. apply select_model_primary in Hl.
    destruct Hl as (Hq & _ & ->). apply in_app_or in Hatom.
    destruct Hatom as [H|H].
    + rewrite (shown_selected_filter _ _ Hq) in H. apply in_map_iff in H.
      destruct H as [a [E Ha]]. inversion E; subst.
      apply filter_In in Ha. destruct Ha as [_ Ha]. rewrite Hm in Ha. discriminate.
    + apply In_selected in H. destruct H as [a [_ Hs]].
      apply val_entry_selected_shape in Hs. destruct Hs as (v & x & E). discriminate.
  - intros line_ Hl. rewrite (second_line_is_auxiliary_line _ _ _ Hl).
    unfold auxiliary_line. apply in_or_app. left. apply in_map.
    apply filter_In. split; [exact Hin | exact Hm].
Qed.

Lemma defined_markers_on_auxiliary_line_only_witness :
  In (Function (defined auxvars_config) [sample_x] true) (shown sample_model)
  /\ forall line_,
       entries (select_model auxvars_config sample_model) !! 0%nat = Some line_ ->
       ~ In (Atom (Function (defined auxvars_config) [sample_x] true)) line_.
Proof.
  split; [simpl; tauto|].
  apply (defined_markers_on_auxiliary_line_only auxvars_config sample_model sample_x true).
  simpl; tauto.
Defined.

(** X9: of the true atoms of the model, [print_model] reads only
    whether the variables are defined: two models with the same shown
    and theory symbols and the same defined variables print the same. *)
Theorem print_model_reads_defined_atoms_only config model1 model2 :
  shown model1 = shown model2 ->
  theory model1 = theory model2 ->
  (forall variable,
     is_defined config model1 variable = is_defined config model2 variable) ->
  print_model config model1 = print_model config model2.
Proof.
  intros Hs Ht Hd.
  assert (forall a, valuation_cond config model1 a = valuation_cond config model2 a)
    as Hv.
  { intros a. destruct a as [| |n args pos| |]; try reflexivity.
    rewrite !valuation_cond_function.
    destruct (constraint_valuation _) as [[v x]|]; [|reflexivity].
    rewrite Hd. reflexivity. }
  unfold print_model. rewrite Hs, Ht.
  rewrite (comprehension_ext (valuation_cond config model1)
             (valuation_cond config model2) val_str val_str _ Hv (fun _ => eq_refl)).
  reflexivity.
Qed.

Lemma print_model_reads_defined_atoms_only_witness :
  print_model auxvars_config sample_model
  = print_model auxvars_config
      {| atoms := [Function DEF [sample_aux] true; Function DEF [sample_x] true];
         shown := shown sample_model; theory := theory sample_model |}.
Proof.
  apply (print_model_reads_defined_atoms_only auxvars_config sample_model
           {| atoms := [Function DEF [sample_aux] true; Function DEF [sample_x] true];
              shown := shown sample_model; theory := theory sample_model |});
    [reflexivity | reflexivity |].
  intros variable. apply eq_true_iff_eq.
  rewrite !is_defined_In. simpl. split.
  - intros [H|[H|[H|[H|[]]]]]; try discriminate H; inversion H; auto.
  - intros [H|[H|[]]]; inversion H; auto.
Defined.

(** X10: a theory atom with another name than [__csp] is never
    printed and never raises, whatever its arguments: the call prints,
    and ends, as on the model without it. *)
Theorem other_theory_atoms_ignored config model l1 l2 n args pos :
  theory model = l1 ++ Function n args pos :: l2 ->
  n <> CSP ->
  print_model config model
  = print_model config {| atoms := atoms model; shown := shown model;
                          theory := l1 ++ l2 |}.
Proof.
  intros Hth Hn.
  assert (constraint_valuation (Function n args pos) = None) as Hcv.
  { simpl. destruct args as [|v [|x [|z args]]]; try reflexivity.
    destruct (String.eqb n CSP) eqn:E; [|reflexivity].
    apply String.eqb_eq in E. contradiction. }
  assert (valuation_cond config model (Function n args pos) = Ok false) as Hv
    by (rewrite valuation_cond_function, Hcv; reflexivity).
  assert (auxvars_cond (Function n args pos) = Ok false) as Ha
    by (rewrite auxvars_cond_function, Hcv; reflexivity).
  unfold print_model. rewrite Hth.
  rewrite (comprehension_skip _ _ l1 _ l2 Hv), (comprehension_skip _ _ l1 _ l2 Ha).
  reflexivity.
Qed.

Lemma other_theory_atoms_ignored_witness :
  print_model auxvars_config
    {| atoms := atoms sample_model; shown := shown sample_model;
       theory := Function "__sum" [Number 1; Number 2] true :: theory sample_model |}
  = print_model auxvars_config sample_model.
Proof.
  apply (other_theory_atoms_ignored auxvars_config
           {| atoms := atoms sample_model; shown := shown sample_model;
              theory := Function "__sum" [Number 1; Number 2] true
                        :: theory sample_model |}
           [] (theory sample_model) "__sum" [Number 1; Number 2] true);
    [reflexivity | discriminate].
Defined.

(** ** The outcomes of the option parser *)

(** X12: what [_parse_defined_predicate] does on every ASCII name: the
    empty name raises [IndexError]; a name whose first character is a
    lowercase letter raises [AttributeError]; every other name is
    answered with false. No name is accepted, and the configuration is
    never changed. *)
Theorem parse_defined_predicate_outcomes config name_ :
  isascii name_ = true ->
  (name_ = EmptyString ->
   _parse_defined_predicate config name_ = Raise IndexError)
  /\ (forall c rest, name_ = String c rest -> islower c = true ->
      _parse_defined_predicate config name_ = Raise AttributeError)
  /\ (forall c rest, name_ = String c rest -> islower c = false ->
      _parse_defined_predicate config name_ = Ok (false, config))
  /\ (forall b config',
        _parse_defined_predicate config name_ = Ok (b, config') ->
        b = false /\ config' = config).
Proof.
  intros _. unfold _parse_defined_predicate, py_and. split; [|split; [|split]].
  - intros ->. reflexivity.
  - intros c rest -> Hc. simpl. rewrite Hc. reflexivity.
  - intros c rest -> Hc. simpl. rewrite Hc. reflexivity.
  - intros b config' H. destruct name_ as [|c rest]; simpl in H; [discriminate|].
    destruct (islower c); simpl in H; [discriminate|]. inversion H.
    split; reflexivity.
Qed.

Lemma parse_defined_predicate_outcomes_witness :
  isascii "defined" = true
  /\ islower "d"%char = true
  /\ _parse_defined_predicate default_config "defined" = Raise AttributeError.
Proof.
  split; [reflexivity|]. split; [reflexivity|].
  destruct (parse_defined_predicate_outcomes default_config "defined" eq_refl)
    as (_ & H & _).
  exact (H "d"%char "efined" eq_refl eq_refl).
Defined.

(** ** The store after the statistics callback *)

Section StatisticsStore.

Variable Step : Type.
Variable theory_on_statistics : Step -> Value -> Store -> Store.

(** The store after the callback: two new dictionaries hold the two
    sections, the accumulator has the entry ["flingo"], and every other
    dictionary is as the constraint theory left it. *)
Lemma on_statistics_run self step l (h : Store) e0 :
  theory_on_statistics step (VDict l) h !! l = Some e0 ->
  exists (h' : Store) (l1 l2 : nat),
    _on_statistics Step theory_on_statistics self step (VDict l) h = Ok (true, h')
    /\ theory_on_statistics step (VDict l) h !! l1 = None
    /\ theory_on_statistics step (VDict l) h !! l2 = None
    /\ l1 <> l2
    /\ h' !! l = Some (<["flingo" := VDict l1]> e0)
    /\ h' !! l1 = Some (flingo_section self l2)
    /\ h' !! l2 = Some (translation_section self)
    /\ (forall l', l' <> l -> l' <> l1 -> l' <> l2 ->
        h' !! l' = theory_on_statistics step (VDict l) h !! l').
Proof.
  intros H0. unfold _on_statistics, py_bind, py_ret.
  set (h1 := theory_on_statistics step (VDict l) h) in *.
  unfold new_dict at 1.
  set (l1 := fresh (dom h1)).
  assert (h1 !! l1 = None) as Hf1
    by (apply not_elem_of_dom, is_fresh).
  assert (l1 <> l) as Hl1 by (apply (fresh_not_allocated h1 l e0 H0)).
  set (h2 := <[l1 := ∅]> h1).
  assert (h2 !! l = Some e0) as H2 by (unfold h2; rewrite lookup_insert_ne; auto).
  rewrite (setitem_Some l e0 _ _ h2 H2).
  set (h3 := <[l := <["flingo" := VDict l1]> e0]> h2).
  assert (h3 !! l = Some (<["flingo" := VDict l1]> e0)) as H3
    by (unfold h3; apply lookup_insert_eq).
  rewrite (dict_getitem_Some l _ "flingo" (VDict l1) h3 H3 (lookup_insert_eq _ _ _)).
  unfold new_dict.
  set (l2 := fresh (dom h3)).
  assert (h3 !! l2 = None) as Hf3 by (apply not_elem_of_dom, is_fresh).
  assert (l2 <> l) as Hl2 by (apply (fresh_not_allocated h3 l _ H3)).
  assert (h3 !! l1 = Some ∅) as H3'.
  { unfold h3, h2. rewrite lookup_insert_ne by auto. apply lookup_insert_eq. }
  assert (l2 <> l1) as Hl21 by (apply (fresh_not_allocated h3 l1 _ H3')).
  assert (h1 !! l2 = None) as Hf2.
  { unfold h3, h2 in Hf3. rewrite !lookup_insert_ne in Hf3 by auto. exact Hf3. }
  set (h4 := <[l2 := ∅]> h3).
  assert (h4 !! l1 = Some ∅) as H4 by (unfold h4; rewrite lookup_insert_ne; auto).
  rewrite (setitem_Some l1 _ _ _ h4 H4).
  set (t := "Translation time in seconds").
  set (e1 := <[t := VDict l2]> (∅ : gmap string Value)).
  set (h5 := <[l1 := e1]> h4).
  assert (h5 !! l1 = Some e1) as H5 by (unfold h5; apply lookup_insert_eq).
  rewrite (dict_getitem_Some l1 _ t (VDict l2) h5 H5 (lookup_insert_eq _ _ _)).
  assert (h5 !! l2 = Some ∅) as H5'.
  { unfold h5, h4. rewrite lookup_insert_ne by auto. apply lookup_insert_eq. }
  rewrite (setitem_Some l2 _ _ _ h5 H5').
  set (h6 := <[l2 := _]> h5).
  assert (h6 !! l2 = Some (<["AST rewriting" := VFloat (rewrite_ast (stats self))]> ∅))
    as H6 by (unfold h6; apply lookup_insert_eq).
  rewrite (setitem_Some l2 _ _ _ h6 H6).
  fold (translation_section self).
  set (h7 := <[l2 := translation_section self]> h6).
  assert (h7 !! l1 = Some e1) as H7.
  { unfold h7, h6. rewrite !lookup_insert_ne by auto. exact H5. }
  rewrite (setitem_Some l1 _ _ _ h7 H7).
  set (h8 := <[l1 := _]> h7).
  assert (h8 !! l1 = Some (<["Number of variables added" :=
                               VInt (variables_added (stats self))]> e1))
    as H8 by (unfold h8; apply lookup_insert_eq).
  rewrite (setitem_Some l1 _ _ _ h8 H8).
  set (h9 := <[l1 := _]> h8).
  assert (h9 !! l1 = Some (<["Number of atoms added" := VInt (atoms_added (stats self))]>
                             (<["Number of variables added" :=
                                  VInt (variables_added (stats self))]> e1)))
    as H9 by (unfold h9; apply lookup_insert_eq).
  rewrite (setitem_Some l1 _ _ _ h9 H9).
  unfold e1, t. fold (flingo_section self l2).
  set (h10 := <[l1 := flingo_section self l2]> h9).
  exists h10, l1, l2. split; [reflexivity|].
  split; [exact Hf1|]. split; [exact Hf2|]. split; [auto|].
  split; [|split; [|split]].
  - unfold h10, h9, h8, h7, h6, h5, h4. rewrite !lookup_insert_ne by auto. exact H3.
  - unfold h10. apply lookup_insert_eq.
  - unfold h10, h9, h8. rewrite !lookup_insert_ne by auto.
    unfold h7. apply lookup_insert_eq.
  - intros l' N0 N1 N2.
    unfold h10, h9, h8, h7, h6, h5, h4, h3, h2.
    rewrite !lookup_insert_ne by auto. reflexivity.
Qed.

(** X13: the callback leaves every dictionary of the store other than
    the accumulator as the constraint theory left it, and in the
    accumulator it writes the entry ["flingo"] only; no dictionary is
    removed. *)
Theorem on_statistics_frame self step l (h : Store) :
  is_Some (theory_on_statistics step (VDict l) h !! l) ->
  exists h' : Store,
    _on_statistics Step theory_on_statistics self step (VDict l) h = Ok (true, h')
    /\ (forall l' entries_, l' <> l ->
        theory_on_statistics step (VDict l) h !! l' = Some entries_ ->
        h' !! l' = Some entries_)
    /\ (forall entries_ entries', 
        theory_on_statistics step (VDict l) h !! l = Some entries_ ->
        h' !! l = Some entries' ->
        forall key : string, key <> "flingo" -> entries' !! key = entries_ !! key)
    /\ (forall l', is_Some (theory_on_statistics step (VDict l) h !! l') ->
        is_Some (h' !! l')).
Proof.
  intros [e0 H0].
  destruct (on_statistics_run self step l h e0 H0)
    as (h' & l1 & l2 & Hr & F1 & F2 & _ & HA & _ & _ & Hother).
  exists h'. split; [exact Hr|].
  assert (forall l' entries_, l' <> l ->
            theory_on_statistics step (VDict l) h !! l' = Some entries_ ->
            h' !! l' = Some entries_) as Hframe.
  { intros l' entries_ Hne Hl'. rewrite Hother; [exact Hl' | exact Hne | |];
      intros ->; congruence. }
  split; [exact Hframe|]. split.
  - intros entries_ entries' E1 E2 key Hkey.
    rewrite H0 in E1. rewrite HA in E2. inversion E1; inversion E2; subst.
    apply lookup_insert_ne. auto.
  - intros l' [e Hl']. destruct (decide (l' = l)) as [->|Hne].
    + rewrite HA. eauto.
    + rewrite (Hframe l' e Hne Hl'). eauto.
Qed.

(** X14: when the accumulator is a dictionary that has no entry
    ["flingo"] when the constraint theory is done with it, the callback
    puts two dictionaries that were not in the store there: the one
    under ["flingo"] has the entry ["Translation time in seconds"] and
    the three counters and nothing else; the one under ["Translation
    time in seconds"] has the two durations and nothing else. *)
Theorem on_statistics_sections self step l (h : Store) entries_ :
  theory_on_statistics step (VDict l) h !! l = Some entries_ ->
  entries_ !! "flingo" = None ->
  exists (h' : Store) (l1 l2 : nat),
    _on_statistics Step theory_on_statistics self step (VDict l) h = Ok (true, h')
    /\ lookup_path h' (VDict l) ["flingo"] = Some (VDict l1)
    /\ lookup_path h' (VDict l) ["flingo"; "Translation time in seconds"]
       = Some (VDict l2)
    /\ theory_on_statistics step (VDict l) h !! l1 = None
    /\ theory_on_statistics step (VDict l) h !! l2 = None
    /\ (forall key : string,
          is_Some (lookup_path h' (VDict l1) [key])
          <-> In key ["Translation time in seconds"; "Number of variables added";
                      "Number of atoms added"; "Number of rules added"])
    /\ (forall key : string,
          is_Some (lookup_path h' (VDict l2) [key])
          <-> In key ["AST rewriting"; "Translation"]).
Proof.
  intros H0 _.
  destruct (on_statistics_run self step l h entries_ H0)
    as (h' & l1 & l2 & Hr & F1 & F2 & _ & HA & HB & HC & _).
  exists h', l1, l2. split; [exact Hr|].
  assert (flingo_section self l2 !! "Translation time in seconds" = Some (VDict l2))
    as Ht.
  { unfold flingo_section. rewrite !lookup_insert_ne by discriminate.
    apply lookup_insert_eq. }
  split; [simpl; rewrite HA, lookup_insert_eq; reflexivity|].
  split; [simpl; rewrite HA, lookup_insert_eq, HB, Ht; reflexivity|].
  split; [exact F1|]. split; [exact F2|]. split.
  - intros key. simpl. rewrite HB.
    assert (is_Some (flingo_section self l2 !! key)
            <-> In key ["Translation time in seconds"; "Number of variables added";
                        "Number of atoms added"; "Number of rules added"]) as Hk.
    { unfold flingo_section. rewrite !lookup_insert_is_Some, lookup_empty.
      simpl. split.
      - intros [H|[_ [H|[_ [H|[_ [H|[_ H]]]]]]]]; try (subst; tauto).
        destruct H as [x Hx]. discriminate.
      - intros [H|[H|[H|[H|[]]]]]; subst.
        + right. split; [discriminate|]. right. split; [discriminate|].
          right. split; [discriminate|]. left. reflexivity.
        + right. split; [discriminate|]. right. split; [discriminate|].
          left. reflexivity.
        + right. split; [discriminate|]. left. reflexivity.
        + left. reflexivity. }
    rewrite <- Hk. destruct (flingo_section self l2 !! key); split;
      intros [x Hx]; try discriminate; eauto.
  - intros key. simpl. rewrite HC.
    assert (is_Some (translation_section self !! key)
            <-> In key ["AST rewriting"; "Translation"]) as Hk.
    { unfold translation_section. rewrite !lookup_insert_is_Some, lookup_empty.
      simpl. split.
      - intros [H|[_ [H|[_ H]]]]; try (subst; tauto).
        destruct H as [x Hx]. discriminate.
      - intros [H|[H|[]]]; subst.
        + right. split; [discriminate|]. left. reflexivity.
        + left. reflexivity. }
    rewrite <- Hk. destruct (translation_section self !! key); split;
      intros [x Hx]; try discriminate; eauto.
Qed.

End StatisticsStore.

Lemma on_statistics_frame_witness :
  is_Some (sample_store2 !! 0%nat)
  /\ exists h' : Store,
       _on_statistics unit (fun _ _ h => h) FlingoApp_init tt (VDict 0%nat) sample_store2
       = Ok (true, h')
       /\ h' !! 1%nat = Some {[ "Time" := VInt 3 ]}.
Proof.
  assert (is_Some (sample_store2 !! 0%nat)) as H by (eexists; reflexivity).
  split; [exact H|].
  destruct (on_statistics_frame unit (fun _ _ h => h) FlingoApp_init tt 0%nat
              sample_store2 H) as (h' & Hr & Hf & _).
  exists h'. split; [exact Hr|]. apply Hf; [lia | reflexivity].
Defined.

Lemma on_statistics_sections_witness :
  sample_store2 !! 0%nat = Some {[ "clingcon" := VDict 1%nat ]}
  /\ ({[ "clingcon" := VDict 1%nat ]} : gmap string Value) !! "flingo" = None
  /\ exists (h' : Store) (l2 : nat),
       _on_statistics unit (fun _ _ h => h) FlingoApp_init tt (VDict 0%nat) sample_store2
       = Ok (true, h')
       /\ is_Some (lookup_path h' (VDict l2) ["Translation"]).
Proof.
  split; [reflexivity|]. split; [reflexivity|].
  destruct (on_statistics_sections unit (fun _ _ h => h) FlingoApp_init tt 0%nat
              sample_store2 {[ "clingcon" := VDict 1%nat ]} eq_refl eq_refl)
    as (h' & l1 & l2 & Hr & _ & _ & _ & _ & _ & Hk).
  exists h', l2. split; [exact Hr|]. apply Hk. simpl. tauto.
Defined.

(** ** The run as a whole *)

Lemma split_at_unique {A : Type} (P : A -> Prop) (l1 l2 pre post : list A) (x y : A) :
  Forall (fun z => ~ P z) l1 -> P y ->
  l1 ++ x :: l2 = pre ++ y :: post ->
  Forall (fun z => ~ P z) l2 -> P x ->
  pre = l1 /\ y = x /\ post = l2.
Proof.
  intros H1 Py E H2 Px. revert pre E.
  induction H1 as [|z l1 Hz _ IH]; intros pre E.
  - destruct pre as [|p pre]; simpl in E.
    + injection E as -> ->. auto.
    + injection E as -> E'. rewrite List.Forall_forall in H2.
      destruct (H2 y); [rewrite E'; apply in_or_app; right; left; reflexivity
                       | exact Py].
  - destruct pre as [|p pre]; simpl in E.
    + injection E as -> E'. contradiction.
    + injection E as -> E'. destruct (IH pre E') as (-> & -> & ->). auto.
Qed.

Section Run.

Variable AST : Type.
Variable Rule : Location -> AST -> list AST -> AST.
Variable HBT : Type.
Variable HeadBodyTransformer : HBT.
Variable visit : HBT -> AST -> AST * HBT.
Variable rules_to_add : HBT -> list (AST * list AST).
Variable parse : list string -> list AST.
Variable THEORY : string.
Variable translate : AppConfig -> Statistic -> Statistic.
(** X15: in a run in which the statements are parsed and rewritten
    (neither [parse_files] nor the transformer raises), [main] calls
    [ground], and it does so once, on the part [base] only: the calls
    can be cut at a call of [ground], and wherever they are cut at one,
    every statement and every queued rule was handed to the builder
    before, the theory was added before, no other call of [ground] came
    before, and what follows is the translation, the preparation of the
    theory and the solving, in this order and nothing else. *)
Theorem grounding_after_all_statements self files now :
  (exists pre post,
     fst (main AST Rule HBT HeadBodyTransformer visit rules_to_add parse THEORY
            translate self files now)
     = pre ++ control_ground [("base", [])] :: post)
  /\ forall pre post parts,
       fst (main AST Rule HBT HeadBodyTransformer visit rules_to_add parse THEORY
              translate self files now)
       = pre ++ control_ground parts :: post ->
       parts = [("base", [])]
       /\ post = [translator_translate; theory_prepare; control_solve]
       /\ In (control_add "base" [] THEORY) pre
       /\ (forall stm,
             In (bld_add stm)
               (fst (main AST Rule HBT HeadBodyTransformer visit rules_to_add parse
                       THEORY translate self files now)) ->
             In (bld_add stm) pre)
       /\ (forall ps, ~ In (control_ground ps) pre).
Proof.
  rewrite main_trace.
  set (adds1 := map bld_add _). set (adds2 := map _ _).
  set (head := [theory_register;
                theory_configure "max-int" (pretty (max_int (config self)));
                theory_configure "min-int" (pretty (min_int (config self)));
                parse_files (sources files)]).
  assert (head ++ adds1 ++ adds2
          ++ [control_add "base" [] THEORY; control_ground [("base", [])];
              translator_translate; theory_prepare; control_solve]
          = (head ++ adds1 ++ adds2 ++ [control_add "base" [] THEORY])
            ++ control_ground [("base", [])]
            :: [translator_translate; theory_prepare; control_solve]) as E.
  { rewrite <- !app_assoc. reflexivity. }
  rewrite E. clear E.
  set (A := head ++ adds1 ++ adds2 ++ [control_add "base" [] THEORY]).
  set (B := [translator_translate; theory_prepare; @control_solve AST]).
  assert (Forall (fun z => ~ (is_ground AST) z) A) as HA.
  { unfold A. rewrite !Forall_app. repeat split.
    - unfold head. repeat constructor; simpl; tauto.
    - unfold adds1. apply List.Forall_forall. intros e He.
      apply in_map_iff in He. destruct He as [x [<- _]]. simpl. tauto.
    - unfold adds2. apply List.Forall_forall. intros e He.
      apply in_map_iff in He. destruct He as [x [<- _]]. simpl. tauto.
    - repeat constructor; simpl; tauto. }
  assert (Forall (fun z => ~ (is_ground AST) z) B) as HB
    by (unfold B; repeat constructor; simpl; tauto).
  split; [exists A, B; reflexivity|].
  intros pre post parts Hcut.
  destruct (split_at_unique (is_ground AST) A B pre post _ (control_ground parts)
              HA I Hcut HB I) as (-> & Hp & ->).
  inversion Hp; subst.
  split; [reflexivity|]. split; [reflexivity|]. split; [|split].
  - unfold A. rewrite !in_app_iff. simpl. tauto.
  - intros stm Hin. apply in_app_or in Hin. destruct Hin as [H|H]; [exact H|].
    simpl in H. destruct H as [H|[H|[H|[H|[]]]]]; discriminate H.
  - intros ps Hin. rewrite List.Forall_forall in HA. exact (HA _ Hin I).
Qed.

End Run.

Lemma grounding_after_all_statements_witness :
  fst (sample_main FlingoApp_init [])
  = sample_before_ground ++ control_ground [("base", [])]
    :: [translator_translate; theory_prepare; control_solve]
  /\ forall stm, In (bld_add stm) (fst (sample_main FlingoApp_init [])) ->
     In (bld_add stm) sample_before_ground.
Proof.
  assert (fst (sample_main FlingoApp_init [])
          = sample_before_ground ++ control_ground [("base", [])]
            :: [translator_translate; theory_prepare; control_solve]) as H
    by reflexivity.
  split; [exact H|].
  apply (proj2 (grounding_after_all_statements string sample_Rule
                  (list (string * list string)) [] sample_visit (fun hbt => hbt)
                  sample_parse "#theory." (fun _ s => s) FlingoApp_init []
                  (fun n => inject_Z (Z.of_nat n))) sample_before_ground
           [translator_translate; theory_prepare; control_solve]
           [("base", [])] H).
Defined.

(** ** Arity rejection *)

(** C5, counterexample: with a [__csp] atom of one argument in the
    model, processing fails all the same when a shown number is read:
    the call ends in [RuntimeError] and the remaining atoms are not
    printed. *)
Lemma malformed_atom_beside_shown_number :
  let model := {| atoms := [];
                  shown := [Function "p" [] true; Number 5];
                  theory := [Function CSP [sample_x] true] |} in
  In (Function CSP [sample_x] true) (theory model)
  /\ length [sample_x] <> 2%nat
  /\ print_model default_config model
     = {| lines := []; raised := Some RuntimeError |}.
Proof.
  split; [simpl; tauto|]. split; [simpl; lia | reflexivity].
Qed.

(** C5, as amended: a theory atom named [__csp] whose number of
    arguments is not 2 makes both conditions false without an
    exception, so no [val] entry comes from it and it never makes the
    call fail: the call prints, and ends, exactly as on the model
    without this atom, and runs without an exception on the one exactly
    when it does on the other. When the remaining symbols are read
    without an exception, the call does not raise and prints the
    primary line of the remaining atoms and, with the flag, their
    auxiliary line. *)
Theorem arity_rejection config model l1 l2 args pos :
  theory model = l1 ++ Function CSP args pos :: l2 ->
  length args <> 2%nat ->
  let model' := {| atoms := atoms model; shown := shown model;
                   theory := l1 ++ l2 |} in
  valuation_cond config model (Function CSP args pos) = Ok false
  /\ auxvars_cond (Function CSP args pos) = Ok false
  /\ select_model config model = select_model config model'
  /\ print_model config model = print_model config model'
  /\ runs_clean config model = runs_clean config model'
  /\ (runs_clean config model' = true ->
      print_model config model
      = {| lines := join " " (map render (spec_primary config model'))
                    :: (if print_aux config
                        then [join " " (map render (auxiliary_line config model'))]
                        else []);
           raised := None |}).
Proof.
  intros Hth Hlen model'.
  assert (constraint_valuation (Function CSP args pos) = None) as Hcv
    by (apply constraint_valuation_arity; exact Hlen).
  assert (valuation_cond config model (Function CSP args pos) = Ok false) as Hv
    by (rewrite valuation_cond_function, Hcv; reflexivity).
  assert (auxvars_cond (Function CSP args pos) = Ok false) as Ha
    by (rewrite auxvars_cond_function, Hcv; reflexivity).
  assert (select_model config model = select_model config model') as Hs.
  { unfold select_model. rewrite Hth.
    rewrite (comprehension_skip _ _ l1 _ l2 Hv), (comprehension_skip _ _ l1 _ l2 Ha).
    reflexivity. }
  assert (print_model config model = print_model config model') as Hp
    by (rewrite !print_model_select, Hs; reflexivity).
  split; [exact Hv|]. split; [exact Ha|]. split; [exact Hs|]. split; [exact Hp|].
  split.
  - assert (theory_atom_clean config model (Function CSP args pos) = true) as Hclean
      by (unfold theory_atom_clean; rewrite Hcv; reflexivity).
    unfold runs_clean. rewrite Hth.
    change (forallb is_function (shown model)
            && forallb (theory_atom_clean config model)
                 (l1 ++ Function CSP args pos :: l2)
            = forallb is_function (shown model)
              && forallb (theory_atom_clean config model) (l1 ++ l2)).
    rewrite !forallb_app. cbn [forallb]. rewrite Hclean. reflexivity.
  - intros Hc. rewrite Hp, print_model_select, (select_model_clean _ _ Hc).
    unfold render_selected. simpl. destruct (print_aux config); reflexivity.
Qed.

Lemma arity_rejection_witness :
  theory sample_model
  = [Function CSP [sample_x; Number 5] true;
     Function CSP [sample_aux; Number 7] true;
     Function CSP [sample_y; Number 0] true] ++ Function CSP [sample_x] true :: []
  /\ length [sample_x] <> 2%nat
  /\ print_model auxvars_config sample_model
     = {| lines := ["p(1) __def(x,x) val(x,5)"; "__def(x) val(__aux(1),7)"];
          raised := None |}.
Proof.
  assert (length [sample_x] <> 2%nat) as Hlen by (simpl; lia).
  split; [reflexivity|]. split; [exact Hlen|].
  destruct (arity_rejection auxvars_config sample_model
              [Function CSP [sample_x; Number 5] true;
               Function CSP [sample_aux; Number 7] true;
               Function CSP [sample_y; Number 0] true] [] [sample_x] true
              eq_refl Hlen) as (_ & _ & _ & _ & _ & Hout).
  exact (Hout eq_refl).
Defined.
